(** * Website Monitoring API

    A shallow embedding of [main.py] (the FastAPI handlers) and
    [schemas.py] (the pydantic document schemas), followed by the
    properties of the check-execution and reporting endpoints.

    Conventions.
    - A Python [str] is a [string]; every [ascii] stands for one character
      (code points below 256), so [String.length] is Python's [len].
    - A Python [int] is a [Z].
    - An [Optional[T]] is an [option T]; [None] is Python's [None].
    - A handler is a computation over the world (the document store and the
      log of outbound requests) that either returns a value or fails with
      the exception that leaves the handler. *)

From Stdlib Require Import ZArith NArith List String Ascii Bool Lia.
From Stdlib Require Import Permutation Sorted.
Import ListNotations.

Local Open Scope Z_scope.

(* ================================================================== *)
(** ** Python strings *)

Module PyStr.

(** [c.lower()] on one character of the Latin-1 range: [A-Z] and the
    accented capitals U+00C0..U+00DE (U+00D7, the multiplication sign,
    excepted) move up by 32; every other character is unchanged. *)
Definition chr_lower (c : ascii) : ascii :=
  let n := N_of_ascii c in
  if ((65 <=? n) && (n <=? 90))%N then ascii_of_N (n + 32)
  else if ((192 <=? n) && (n <=? 222) && negb (n =? 215))%N
       then ascii_of_N (n + 32)
       else c.

(** [s.lower()] *)
Fixpoint lower (s : string) : string :=
  match s with
  | EmptyString => EmptyString
  | String c t => String (chr_lower c) (lower t)
  end.

(** [bool(s)]: a string is truthy unless it is empty. *)
Definition truthy (s : string) : bool :=
  match s with
  | EmptyString => false
  | String _ _ => true
  end.

(** [hay.startswith(needle)] *)
Fixpoint starts_with (needle hay : string) : bool :=
  match needle, hay with
  | EmptyString, _ => true
  | String _ _, EmptyString => false
  | String a n', String b h' => Ascii.eqb a b && starts_with n' h'
  end.

(** [needle in hay]: [needle] occurs at some offset of [hay]. *)
Fixpoint contains (needle hay : string) : bool :=
  starts_with needle hay
  || match hay with
     | EmptyString => false
     | String _ h' => contains needle h'
     end.

(** [s[:n]] for [n >= 0] *)
Fixpoint take (n : nat) (s : string) : string :=
  match n, s with
  | O, _ => EmptyString
  | S _, EmptyString => EmptyString
  | S n', String c t => String c (take n' t)
  end.

(** The mathematical reading of "is a substring of". *)
Definition Substring (needle hay : string) : Prop :=
  exists pre post : string, hay = (pre ++ needle ++ post)%string.

End PyStr.

(** Truthiness of an [Optional[int]]: [None] and [0] are falsy. *)
Definition int_truthy (v : option Z) : bool :=
  match v with
  | None => false
  | Some n => negb (n =? 0)
  end.

(** [sum(l)] over Python integers. *)
Definition py_sum (l : list Z) : Z := fold_left Z.add l 0.

(** [len(l)] as a Python integer. *)
Definition py_len {A : Type} (l : list A) : Z := Z.of_nat (List.length l).

(* ================================================================== *)
(** ** schemas.py *)

Module Schemas.

(** [class Website(BaseModel)] *)
Record Website := {
  name : string;
  url : string;
  category_id : option string;
  keywords : list string;
  interval_seconds : Z;
  is_active : bool
}.

(** [class CheckResult(BaseModel)] *)
Record CheckResult := {
  website_id : string;
  status_code : option Z;
  is_up : bool;
  response_time_ms : option Z;
  keyword_matches : list string;
  error : option string
}.

(** [class Category(BaseModel)] *)
Record Category := {
  cat_name : string;
  cat_color : option string
}.

(** [Field(..., min_length=lo, max_length=hi)] on a string. *)
Definition length_between (lo hi : nat) (s : string) : bool :=
  (lo <=? String.length s)%nat && (String.length s <=? hi)%nat.

(** [Field(_, ge=lo, le=hi)] on an integer. *)
Definition int_between (lo hi v : Z) : bool :=
  (lo <=? v) && (v <=? hi).

(** [WebsiteSchema] applied to the dumped payload: the constructor
    validates the field constraints and raises pydantic's
    [ValidationError] ([None] here) when one fails.  [data] comes from a
    validated [WebsiteIn], so [url] already is a parsed URL and passes. *)
Definition Website_new (n u : string) (c : option string)
           (k : list string) (i : Z) (a : bool) : option Website :=
  if length_between 2 150 n && int_between 30 86400 i
  then Some {| name := n; url := u; category_id := c; keywords := k;
               interval_seconds := i; is_active := a |}
  else None.

(** [CategorySchema] applied to the dumped payload. *)
Definition Category_new (n : string) (c : option string) : option Category :=
  if length_between 2 100 n
  then Some {| cat_name := n; cat_color := c |}
  else None.

End Schemas.

(* ================================================================== *)
(** ** Identifiers of the document store ([bson.ObjectId]) *)

Module Bson.

(** An identifier is kept as the hexadecimal text of its bytes,
    [str(ObjectId)]: lowercase digits, 24 of them for the 12 bytes of an
    identifier the store hands out. *)
Definition ObjectId := string.

Definition is_hex_digit (c : ascii) : bool :=
  let n := N_of_ascii c in
  (((48 <=? n) && (n <=? 57))
   || ((65 <=? n) && (n <=? 70))
   || ((97 <=? n) && (n <=? 102)))%N.

Fixpoint all_hex (s : string) : bool :=
  match s with
  | EmptyString => true
  | String c t => is_hex_digit c && all_hex t
  end.

(** [Py_ISSPACE]: the ASCII whitespace characters, space and
    [\t \n \v \f \r]. *)
Definition is_space (c : ascii) : bool :=
  let n := N_of_ascii c in
  ((n =? 32) || ((9 <=? n) && (n <=? 13)))%N.

(** [bytes.fromhex(s)], the bytes as their hexadecimal text: whitespace
    is skipped before each byte, a byte is two hexadecimal digits next to
    each other, in either case, and anything else is a [ValueError]
    ([None] here). *)
Fixpoint fromhex (s : string) : option string :=
  match s with
  | EmptyString => Some EmptyString
  | String c t =>
      if is_space c then fromhex t
      else if is_hex_digit c then
        match t with
        | String d t' =>
            if is_hex_digit d
            then match fromhex t' with
                 | Some rest =>
                     Some (String (PyStr.chr_lower c)
                             (String (PyStr.chr_lower d) rest))
                 | None => None
                 end
            else None
        | EmptyString => None
        end
      else None
  end.

(** [ObjectId(id_str)] on a string: a string of 24 characters is handed
    to [bytes.fromhex] and the bytes it returns are the identifier, 12 of
    them when the string is 24 digits and fewer when it holds whitespace;
    any other string is refused.  [None] stands for [InvalidId]. *)
Definition ObjectId_of_str (id_str : string) : option ObjectId :=
  if (String.length id_str =? 24)%nat then fromhex id_str else None.

Definition hex_digit (n : N) : ascii :=
  if (n <? 10)%N then ascii_of_N (48 + n) else ascii_of_N (87 + n).

Fixpoint hex_of (digits : nat) (n : N) (acc : string) : string :=
  match digits with
  | O => acc
  | S d => hex_of d (n / 16)%N (String (hex_digit (n mod 16)%N) acc)
  end.

(** The text of the [n]-th identifier handed out by the store. *)
Definition ObjectId_of_N (n : N) : ObjectId := hex_of 24 n EmptyString.

End Bson.

(* ================================================================== *)
(** ** The document store ([database.py], on top of MongoDB) *)

Module Database.

Import Bson.

(** A stored document: the dumped model with the [_id] and the
    [created_at] stamp the store adds. *)
Record Document (A : Type) := mkDocument {
  _id : ObjectId;
  fields : A;
  created_at : Z
}.
Arguments mkDocument {A}.
Arguments _id {A}.
Arguments fields {A}.
Arguments created_at {A}.

(** The database: three collections and the identifier counter. *)
Record Db := mkDb {
  db_category : list (Document Schemas.Category);
  db_website : list (Document Schemas.Website);
  db_checkresult : list (Document Schemas.CheckResult);
  db_next_id : N
}.

(** Collection names, indexed by the model they hold. *)
Inductive Collection : Type -> Type :=
| category : Collection Schemas.Category
| website : Collection Schemas.Website
| checkresult : Collection Schemas.CheckResult.

(** [db[name]] *)
Definition collection {A : Type} (c : Collection A) (d : Db)
  : list (Document A) :=
  match c in Collection T return list (Document T) with
  | category => db_category d
  | website => db_website d
  | checkresult => db_checkresult d
  end.

(** [db[name].insert_one(doc)]: the document goes to the end of its
    collection and the identifier counter moves on. *)
Definition insert_one {A : Type} (c : Collection A) (doc : Document A)
           (d : Db) : Db :=
  match c in Collection T return Document T -> Db with
  | category => fun x =>
      mkDb (db_category d ++ [x]) (db_website d) (db_checkresult d)
           (N.succ (db_next_id d))
  | website => fun x =>
      mkDb (db_category d) (db_website d ++ [x]) (db_checkresult d)
           (N.succ (db_next_id d))
  | checkresult => fun x =>
      mkDb (db_category d) (db_website d) (db_checkresult d ++ [x])
           (N.succ (db_next_id d))
  end doc.

(** Modelled from the spec: [database.create_document] is not among the
    sources.  The spec's Result Recorder "construct[s] a ... record with
    a store-assigned identifier and store-assigned creation timestamp,
    then persist[s] it" and "returns the assigned identifier": one
    document is inserted, stamped with the clock reading [now], and the
    text of its identifier is returned. *)
Definition create_document {A : Type} (c : Collection A) (data : A)
           (now : Z) (d : Db) : string * Db :=
  let new_id := ObjectId_of_N (db_next_id d) in
  (new_id, insert_one c (mkDocument new_id data now) d).

(** [find_one({"_id": o})]: the first document with that identifier. *)
Definition find_one {A : Type} (o : ObjectId) (docs : list (Document A))
  : option (Document A) :=
  List.find (fun x => String.eqb (_id x) o) docs.

(** [cursor.sort("created_at", -1)]: newest first.  Insertion keeps
    documents with equal stamps in their stored order. *)
Fixpoint insert_desc {A : Type} (x : Document A) (l : list (Document A))
  : list (Document A) :=
  match l with
  | [] => [x]
  | y :: t =>
      if created_at y <=? created_at x then x :: y :: t
      else y :: insert_desc x t
  end.

Definition sort_created_at_desc {A : Type} (l : list (Document A))
  : list (Document A) :=
  fold_right insert_desc [] l.

(** [cursor.limit(n)] as pymongo sends it to the server: a limit of [0]
    is no limit at all, and a negative limit asks for [abs(n)]
    documents. *)
Definition limit {A : Type} (n : Z) (l : list A) : list A :=
  if n =? 0 then l else firstn (Z.to_nat (Z.abs n)) l.

(** [count_documents({})] *)
Definition count_documents {A : Type} (l : list A) : Z := py_len l.

End Database.

(* ================================================================== *)
(** ** The outside world of a handler *)

(** What [requests.get] hands back: [status_code] and [text]. *)
Record Response := mkResponse {
  resp_status_code : Z;
  resp_text : string
}.

(** [bool(resp)]: [requests.Response.__bool__] is [Response.ok], which is
    false exactly for the client and server error codes 400..599. *)
Definition Response_bool (resp : Response) : bool :=
  negb ((400 <=? resp_status_code resp) && (resp_status_code resp <? 600)).

(** One call of [requests.get(url, timeout=15)] together with the two
    [time.perf_counter()] readings around it and with what reading
    [resp.text] does afterwards: a response comes back whose text is
    [resp_text], [elapsed_ms] being [int((t1 - t0) * 1000)]; or the call
    raises an exception [e] whose text [str(e)] is [message]; or a
    response comes back with [status_code] whose body cannot be decoded,
    so that reading [resp.text] raises an exception with that text (a
    body sent with a charset whose codec fails, for instance). *)
Inductive GetOutcome :=
| Returned (resp : Response) (elapsed_ms : Z)
| Raised (message : string)
| Undecodable (status_code : Z) (elapsed_ms : Z) (message : string).

(** The environment of one request: what the network answers for a URL
    and what the store's clock reads (milliseconds). *)
Record Env := mkEnv {
  network : string -> GetOutcome;
  utcnow : Z
}.

(** The state a handler runs in: the database and the list of URLs
    probed so far, oldest first. *)
Record World := mkWorld {
  db : Database.Db;
  probes : list string
}.

(** The exceptions that can leave a handler, and the status FastAPI
    answers with. *)
Inductive Failure :=
| HTTPException (status_code : Z) (detail : string)
| RequestValidationError
| ValidationError.

(** [HTTPException] carries its own status; a body that does not fit the
    handler's parameter model is answered with 422; any other exception,
    pydantic's [ValidationError] raised inside a handler included, is an
    internal server error. *)
Definition failure_status (f : Failure) : Z :=
  match f with
  | HTTPException s _ => s
  | RequestValidationError => 422
  | ValidationError => 500
  end.

(** Handlers: state passing with exceptions. *)
Definition M (A : Type) : Type := World -> (Failure + A) * World.

Definition ret {A : Type} (a : A) : M A := fun w => (inr a, w).

Definition raise {A : Type} (f : Failure) : M A := fun w => (inl f, w).

Definition bind {A B : Type} (m : M A) (k : A -> M B) : M B :=
  fun w =>
    match m w with
    | (inl f, w') => (inl f, w')
    | (inr a, w') => k a w'
    end.

Notation "x <- m ;; k" := (bind m (fun x => k))
  (at level 61, m at next level, right associativity).

(** Reading the database. *)
Definition query {A : Type} (f : Database.Db -> A) : M A :=
  fun w => (inr (f (db w)), w).

(** [create_document(name, data)] as a step of a handler. *)
Definition create_document {A : Type} (c : Database.Collection A)
           (data : A) (now : Z) : M string :=
  fun w =>
    let '(new_id, d) := Database.create_document c data now (db w) in
    (inr new_id, mkWorld d (probes w)).

(** [requests.get(url, timeout=15)] as a step of a handler: the URL is
    recorded and the network's answer returned. *)
Definition requests_get (env : Env) (target : string) : M GetOutcome :=
  fun w => (inr (network env target), mkWorld (db w) (probes w ++ [target])).

(** The status code of the HTTP answer to a request. *)
Definition http_status {A : Type} (r : Failure + A) : Z :=
  match r with
  | inl f => failure_status f
  | inr _ => 200
  end.

(* ================================================================== *)
(** ** main.py *)

(** [oid(id_str)] *)
Definition oid (id_str : string) : M Bson.ObjectId :=
  match Bson.ObjectId_of_str id_str with
  | Some o => ret o
  | None => raise (HTTPException 400 "Invalid ID format")
  end.

(** [class WebsiteIn(BaseModel)] *)
Record WebsiteIn := mkWebsiteIn {
  in_name : string;
  in_url : string;
  in_category_id : option string;
  in_keywords : list string;
  in_interval_seconds : Z;
  in_is_active : bool
}.

(** [class WebsiteOut(WebsiteIn)]: the payload and [id]. *)
Record WebsiteOut := mkWebsiteOut {
  wo_id : string;
  wo_payload : WebsiteIn
}.

(** [class CheckResultOut(BaseModel)] *)
Record CheckResultOut := mkCheckResultOut {
  id : string;
  website_id : string;
  status_code : option Z;
  is_up : bool;
  response_time_ms : option Z;
  keyword_matches : list string;
  error : option string;
  created_at : option Z
}.

(** [class CheckResponse(BaseModel)] *)
Record CheckResponse := mkCheckResponse {
  result : CheckResultOut
}.

(** The decoded JSON body of [POST /api/websites]: every field is either
    missing or carries a value of the field's JSON type. *)
Record WebsiteBody := mkWebsiteBody {
  body_name : option string;
  body_url : option string;
  body_category_id : option string;
  body_keywords : option (list string);
  body_interval_seconds : option Z;
  body_is_active : option bool
}.

Definition or_default {A : Type} (dflt : A) (v : option A) : A :=
  match v with
  | Some a => a
  | None => dflt
  end.

Section Handlers.

(** pydantic's [HttpUrl] parser is not part of the sources: it maps the
    text of a well-formed http(s) URL to its normal form and rejects
    everything else. *)
Variable HttpUrl : string -> option string.

(** FastAPI validating a body against [WebsiteIn]: [name] and [url] are
    required, [name] is any string, [url] must parse, the other fields
    have defaults and [interval_seconds] carries
    [Field(300, ge=30, le=86400)]. *)
Definition WebsiteIn_validate (b : WebsiteBody) : option WebsiteIn :=
  match body_name b, body_url b with
  | Some n, Some u =>
      match HttpUrl u with
      | Some u' =>
          let i := or_default 300 (body_interval_seconds b) in
          if Schemas.int_between 30 86400 i
          then Some (mkWebsiteIn n u' (body_category_id b)
                       (or_default [] (body_keywords b)) i
                       (or_default true (body_is_active b)))
          else None
      | None => None
      end
  | _, _ => None
  end.

(** [create_website(payload)].  The [category_id] branch of the source
    has an empty body and changes nothing. *)
Definition create_website (env : Env) (payload : WebsiteIn) : M WebsiteOut :=
  match Schemas.Website_new (in_name payload) (in_url payload)
          (in_category_id payload) (in_keywords payload)
          (in_interval_seconds payload) (in_is_active payload) with
  | None => raise ValidationError
  | Some doc =>
      new_id <- create_document Database.website doc (utcnow env) ;;
      ret (mkWebsiteOut new_id payload)
  end.

(** [POST /api/websites]: FastAPI validates the body, then calls the
    handler. *)
Definition post_api_websites (env : Env) (b : WebsiteBody) : M WebsiteOut :=
  match WebsiteIn_validate b with
  | None => raise RequestValidationError
  | Some payload => create_website env payload
  end.

End Handlers.

(** [class CategoryIn(BaseModel)] *)
Record CategoryIn := mkCategoryIn {
  cin_name : string;
  cin_color : option string
}.

(** [class CategoryOut(CategoryIn)]: the payload and [id]. *)
Record CategoryOut := mkCategoryOut {
  co_id : string;
  co_payload : CategoryIn
}.

(** The decoded JSON body of [POST /api/categories]. *)
Record CategoryBody := mkCategoryBody {
  cbody_name : option string;
  cbody_color : option string
}.

(** FastAPI validating a body against [CategoryIn]: [name] is required
    and carries [Field(..., min_length=2, max_length=100)]. *)
Definition CategoryIn_validate (b : CategoryBody) : option CategoryIn :=
  match cbody_name b with
  | Some n =>
      if Schemas.length_between 2 100 n
      then Some (mkCategoryIn n (cbody_color b))
      else None
  | None => None
  end.

(** [create_category(payload)] *)
Definition create_category (env : Env) (payload : CategoryIn) : M CategoryOut :=
  match Schemas.Category_new (cin_name payload) (cin_color payload) with
  | None => raise ValidationError
  | Some cat =>
      new_id <- create_document Database.category cat (utcnow env) ;;
      ret (mkCategoryOut new_id payload)
  end.

(** [POST /api/categories] *)
Definition post_api_categories (env : Env) (b : CategoryBody) : M CategoryOut :=
  match CategoryIn_validate b with
  | None => raise RequestValidationError
  | Some payload => create_category env payload
  end.

(** The local variables of [run_check] that the [try] block sets. *)
Record CheckVars := mkCheckVars {
  v_status_code : option Z;
  v_is_up : bool;
  v_response_time_ms : option Z;
  v_error : option string;
  v_matches : list string
}.

(** The keyword loop of [run_check]:
    [for kw in keywords: if kw and kw.lower() in content: matches.append(kw)] *)
Definition scan_keywords (content : string) (keywords : list string)
  : list string :=
  fold_left
    (fun matches kw =>
       if PyStr.truthy kw && PyStr.contains (PyStr.lower kw) content
       then matches ++ [kw]
       else matches)
    keywords [].

(** [content = resp.text.lower() if resp and resp.text else ""] *)
Definition response_content (resp : Response) : string :=
  if Response_bool resp && PyStr.truthy (resp_text resp)
  then PyStr.lower (resp_text resp)
  else EmptyString.

(** The [try]/[except] block of [run_check], from the initial values of
    the five variables to their values after the block.  Two steps can
    raise: [requests.get], before anything is set, and [resp.text] on
    line 168, after [response_time_ms], [status_code] and [is_up] are
    set.  [resp.text] is read only when [resp] is truthy; for a 4xx or
    5xx response the content is the empty string without reading it.
    The [except] branch sets [error] and puts [is_up] back to [False];
    it leaves the other variables as they are.  The keywords of a stored
    website are strings, so the loop does not raise. *)
Definition check_outcome (outcome : GetOutcome) (keywords : list string)
  : CheckVars :=
  match outcome with
  | Returned resp elapsed_ms =>
      mkCheckVars
        (Some (resp_status_code resp))
        ((200 <=? resp_status_code resp) && (resp_status_code resp <? 400))
        (Some elapsed_ms)
        None
        (scan_keywords (response_content resp) keywords)
  | Raised message =>
      mkCheckVars None false None (Some (PyStr.take 500 message)) []
  | Undecodable status elapsed_ms message =>
      if Response_bool (mkResponse status EmptyString)
      then mkCheckVars (Some status) false (Some elapsed_ms)
             (Some (PyStr.take 500 message)) []
      else mkCheckVars (Some status)
             ((200 <=? status) && (status <? 400))
             (Some elapsed_ms) None
             (scan_keywords EmptyString keywords)
  end.

(** [run_check(website_id)], the handler of [POST /api/check/{website_id}]. *)
Definition run_check (env : Env) (website_id : string) : M CheckResponse :=
  o <- oid website_id ;;
  item <- query (fun d => Database.find_one o (Database.db_website d)) ;;
  match item with
  | None => raise (HTTPException 404 "Website not found")
  | Some item =>
      let url := Schemas.url (Database.fields item) in
      let keywords := Schemas.keywords (Database.fields item) in
      outcome <- requests_get env url ;;
      let v := check_outcome outcome keywords in
      let check_doc :=
        Schemas.Build_CheckResult website_id (v_status_code v) (v_is_up v)
          (v_response_time_ms v) (v_matches v) (v_error v) in
      new_id <- create_document Database.checkresult check_doc (utcnow env) ;;
      ret (mkCheckResponse
             (mkCheckResultOut new_id website_id (v_status_code v) (v_is_up v)
                (v_response_time_ms v) (v_matches v) (v_error v) None))
  end.

(** [filt = {"website_id": website_id} if website_id else {}] applied to a
    document: [None] and the empty string select every document. *)
Definition filt (website_id : option string)
           (doc : Database.Document Schemas.CheckResult) : bool :=
  match website_id with
  | Some w =>
      if PyStr.truthy w
      then String.eqb (Schemas.website_id (Database.fields doc)) w
      else true
  | None => true
  end.

(** [db["checkresult"].find(filt).sort("created_at", -1).limit(limit)] *)
Definition latest_items (limit : Z) (website_id : option string)
           (d : Database.Db) : list (Database.Document Schemas.CheckResult) :=
  Database.limit limit
    (Database.sort_created_at_desc
       (filter (filt website_id) (Database.db_checkresult d))).




(** The dictionary [summary] returns. *)
Record Summary := mkSummary {
  total_sites : Z;
  total_categories : Z;
  recent_checks : Z;
  up : Z;
  down : Z;
  avg_response_time_ms : option Z
}.

(** [recent = list(db["checkresult"].find().sort("created_at", -1).limit(200))] *)
Definition recent_window (d : Database.Db)
  : list (Database.Document Schemas.CheckResult) :=
  Database.limit 200 (Database.sort_created_at_desc (Database.db_checkresult d)).

(** [sum(1 for r in recent if r.get("is_up"))] *)
Definition count_up (recent : list (Database.Document Schemas.CheckResult)) : Z :=
  py_sum
    (map (fun _ => 1)
       (filter (fun r => Schemas.is_up (Database.fields r)) recent)).

(** [[r.get("response_time_ms") for r in recent if r.get("response_time_ms")]] *)
Fixpoint response_times (recent : list (Database.Document Schemas.CheckResult))
  : list Z :=
  match recent with
  | [] => []
  | r :: t =>
      let v := Schemas.response_time_ms (Database.fields r) in
      if int_truthy v
      then match v with
           | Some n => n :: response_times t
           | None => response_times t
           end
      else response_times t
  end.

(** [int(sum(rts) / len(rts))] when [rts] is not empty.  The division
    goes through a float: for a sum below 2^53 in absolute value the
    float is close enough to the quotient for [int] to give the quotient
    of the two integers truncated towards zero, which is the value
    below; what is proved of the value of the average carries that
    bound. *)
Definition average (rts : list Z) : option Z :=
  match rts with
  | [] => None
  | _ :: _ => Some (Z.quot (py_sum rts) (py_len rts))
  end.

(** [summary()], the handler of [GET /api/summary]. *)
Definition summary : M Summary :=
  total_sites <- query (fun d => Database.count_documents (Database.db_website d)) ;;
  total_categories <- query (fun d => Database.count_documents (Database.db_category d)) ;;
  recent <- query recent_window ;;
  let up := count_up recent in
  let down := py_len recent - up in
  let avg_rt := average (response_times recent) in
  ret (mkSummary total_sites total_categories (py_len recent) up down avg_rt).

(* ================================================================== *)
(** ** Vocabulary of the properties *)

(** [l1] is [l2] with some elements left out, the others in place. *)
Inductive Subseq {A : Type} : list A -> list A -> Prop :=
| Subseq_nil : Subseq [] []
| Subseq_skip : forall x l1 l2, Subseq l1 l2 -> Subseq l1 (x :: l2)
| Subseq_keep : forall x l1 l2, Subseq l1 l2 -> Subseq (x :: l1) (x :: l2).

(** The test a keyword passes to be reported, on the text scanned. *)
Definition keyword_found (content kw : string) : bool :=
  PyStr.truthy kw && PyStr.contains (PyStr.lower kw) content.




(** A returned [CheckResultOut] shows a stored document: same identifier,
    same six fields. *)
Definition shows (out : CheckResultOut)
           (doc : Database.Document Schemas.CheckResult) : Prop :=
  id out = Database._id doc
  /\ website_id out = Schemas.website_id (Database.fields doc)
  /\ status_code out = Schemas.status_code (Database.fields doc)
  /\ is_up out = Schemas.is_up (Database.fields doc)
  /\ response_time_ms out = Schemas.response_time_ms (Database.fields doc)
  /\ keyword_matches out = Schemas.keyword_matches (Database.fields doc)
  /\ error out = Schemas.error (Database.fields doc).

(** The website id names a stored website. *)
Definition resolves (website_id : string) (w : World) : Prop :=
  exists o item,
    Bson.ObjectId_of_str website_id = Some o
    /\ Database.find_one o (Database.db_website (db w)) = Some item.

(** Newest first. *)
Definition newer_or_equal {A : Type} (x y : Database.Document A) : Prop :=
  Database.created_at y <= Database.created_at x.

(** The check results of a world. *)
Definition check_results (w : World)
  : list (Database.Document Schemas.CheckResult) :=
  Database.db_checkresult (db w).

(** The request is refused before the handler runs: answer 422, world
    untouched. *)
Definition refused {A : Type} (run : (Failure + A) * World) (w : World) : Prop :=
  run = (inl RequestValidationError, w) /\ http_status (fst run) = 422.

(** The request creates one website, stored and returned with
    [interval_seconds = i]. *)
Definition created_with_interval (run : (Failure + WebsiteOut) * World)
           (w : World) (i : Z) : Prop :=
  exists out doc w',
    run = (inr out, w')
    /\ http_status (fst run) = 200
    /\ in_interval_seconds (wo_payload out) = i
    /\ Database.db_website (db w') = Database.db_website (db w) ++ [doc]
    /\ Schemas.interval_seconds (Database.fields doc) = i
    /\ wo_id out = Database._id doc.

(** [interval_seconds] of a body replaced. *)
Definition with_interval (b : WebsiteBody) (i : option Z) : WebsiteBody :=
  mkWebsiteBody (body_name b) (body_url b) (body_category_id b)
    (body_keywords b) i (body_is_active b).

(** [name] of a body replaced. *)
Definition with_name (b : WebsiteBody) (n : string) : WebsiteBody :=
  mkWebsiteBody (Some n) (body_url b) (body_category_id b)
    (body_keywords b) (body_interval_seconds b) (body_is_active b).

(** The values [run_check] computes for a stored website [item]: the
    variables after the [try] block, the document it stores and the
    result it returns. *)
Definition vars_of (env : Env) (item : Database.Document Schemas.Website)
  : CheckVars :=
  check_outcome (network env (Schemas.url (Database.fields item)))
    (Schemas.keywords (Database.fields item)).

Definition stored_of (env : Env) (website_id : string)
           (item : Database.Document Schemas.Website) (w : World)
  : Database.Document Schemas.CheckResult :=
  let v := vars_of env item in
  Database.mkDocument (Bson.ObjectId_of_N (Database.db_next_id (db w)))
    (Schemas.Build_CheckResult website_id (v_status_code v) (v_is_up v)
       (v_response_time_ms v) (v_matches v) (v_error v))
    (utcnow env).

Definition returned_of (env : Env) (website_id : string)
           (item : Database.Document Schemas.Website) (w : World)
  : CheckResultOut :=
  let v := vars_of env item in
  mkCheckResultOut (Bson.ObjectId_of_N (Database.db_next_id (db w)))
    website_id (v_status_code v) (v_is_up v) (v_response_time_ms v)
    (v_matches v) (v_error v) None.

(* ================================================================== *)
(** ** Sample data *)

Module Sample.

Local Open Scope string_scope.

(** A stand-in for pydantic's URL parser: an [http://] or [https://]
    prefix is required and the text is kept as it is. *)
Definition HttpUrl (u : string) : option string :=
  if PyStr.starts_with "http://" u || PyStr.starts_with "https://" u
  then Some u
  else None.

Definition site_id : string := "64b7f0c2a1b2c3d4e5f60718".

Definition site : Database.Document Schemas.Website :=
  Database.mkDocument site_id
    (Schemas.Build_Website "Example" "https://example.com/" None
       ["Welcome"] 300 true)
    1000.

(** One stored website, no check yet. *)
Definition world : World :=
  mkWorld (Database.mkDb [] [site] [] 1) [].

(** An empty store. *)
Definition empty_world : World :=
  mkWorld (Database.mkDb [] [] [] 0) [].

(** The site answers [status] with the body below after [ms] milliseconds. *)
Definition answering (status ms now : Z) : Env :=
  mkEnv (fun _ => Returned (mkResponse status "Welcome to Example") ms) now.

(** The site refuses the connection. *)
Definition refusing (now : Z) : Env :=
  mkEnv (fun _ => Raised "Connection refused") now.

(** The body of scenario B. *)
Definition body : WebsiteBody :=
  mkWebsiteBody (Some "Example") (Some "https://example.com")
    None (Some ["Welcome"]) None None.

(** The world after one more check of the site, run in [env]. *)
Definition after_check (env : Env) (w : World) : World :=
  snd (run_check env site_id w).

(** Scenario E: two checks up, at 100 ms and 200 ms, and one down. *)
Definition scenario_E : World :=
  after_check (refusing 4000)
    (after_check (answering 200 200 3000)
       (after_check (answering 200 100 2000) world)).

(** One check answered in less than a millisecond. *)
Definition fast_check : World :=
  after_check (answering 200 0 2000) world.

(** Two checks, the first at 2000 and the second at 3000. *)
Definition two_checks : World :=
  after_check (refusing 3000) (after_check (answering 200 100 2000) world).

End Sample.

(* ================================================================== *)
(** ** main.py: the listing and lookup handlers *)

(** [cursor.sort("name", 1)]: ascending by the [name] field, strings
    compared character by character.  Insertion keeps documents with
    equal names in their stored order. *)
Fixpoint insert_name_asc {A : Type} (name : A -> string)
         (x : Database.Document A) (l : list (Database.Document A))
  : list (Database.Document A) :=
  match l with
  | [] => [x]
  | y :: t =>
      if String.leb (name (Database.fields x)) (name (Database.fields y))
      then x :: y :: t
      else y :: insert_name_asc name x t
  end.

Definition sort_name_asc {A : Type} (name : A -> string)
           (l : list (Database.Document A)) : list (Database.Document A) :=
  fold_right (insert_name_asc name) [] l.

(** A list built element by element with a model constructor that may
    raise: the first failure ends the construction. *)
Fixpoint build_all {A B : Type} (f : A -> option B) (l : list A)
  : option (list B) :=
  match l with
  | [] => Some []
  | x :: t =>
      match f x with
      | None => None
      | Some y =>
          match build_all f t with
          | None => None
          | Some ys => Some (y :: ys)
          end
      end
  end.

(** [CategoryOut(id=str(i["_id"]), name=i.get("name"), color=i.get("color"))];
    the constructor checks the length of [name] that [CategoryIn]
    declares. *)
Definition CategoryOut_of (i : Database.Document Schemas.Category)
  : option CategoryOut :=
  let c := Database.fields i in
  if Schemas.length_between 2 100 (Schemas.cat_name c)
  then Some (mkCategoryOut (Database._id i)
               (mkCategoryIn (Schemas.cat_name c) (Schemas.cat_color c)))
  else None.

(** [list_categories()], the handler of [GET /api/categories]. *)
Definition list_categories : M (list CategoryOut) :=
  items <- query (fun d => sort_name_asc Schemas.cat_name (Database.db_category d)) ;;
  match build_all CategoryOut_of items with
  | Some out => ret out
  | None => raise ValidationError
  end.

Section Lookup.

Variable HttpUrl : string -> option string.

(** The [WebsiteOut] built from a stored website in [list_websites] and
    [get_website]: [url] is parsed again and [interval_seconds] checked
    against its bounds; [name] carries no constraint; [category_id] is
    stored as a string and passed on. *)
Definition WebsiteOut_of (i : Database.Document Schemas.Website)
  : option WebsiteOut :=
  let s := Database.fields i in
  match HttpUrl (Schemas.url s) with
  | Some u =>
      if Schemas.int_between 30 86400 (Schemas.interval_seconds s)
      then Some (mkWebsiteOut (Database._id i)
                   (mkWebsiteIn (Schemas.name s) u (Schemas.category_id s)
                      (Schemas.keywords s) (Schemas.interval_seconds s)
                      (Schemas.is_active s)))
      else None
  | None => None
  end.

(** [list_websites()], the handler of [GET /api/websites]. *)
Definition list_websites : M (list WebsiteOut) :=
  items <- query (fun d => sort_name_asc Schemas.name (Database.db_website d)) ;;
  match build_all WebsiteOut_of items with
  | Some out => ret out
  | None => raise ValidationError
  end.

(** [get_website(website_id)], the handler of
    [GET /api/websites/{website_id}]. *)
Definition get_website (website_id : string) : M WebsiteOut :=
  o <- oid website_id ;;
  item <- query (fun d => Database.find_one o (Database.db_website d)) ;;
  match item with
  | None => raise (HTTPException 404 "Website not found")
  | Some item =>
      match WebsiteOut_of item with
      | Some out => ret out
      | None => raise ValidationError
      end
  end.

(** A stored website that the schema and the URL parser accept as it is. *)
Definition Website_ok (s : Schemas.Website) : Prop :=
  Schemas.length_between 2 150 (Schemas.name s) = true
  /\ Schemas.int_between 30 86400 (Schemas.interval_seconds s) = true
  /\ HttpUrl (Schemas.url s) = Some (Schemas.url s).

End Lookup.

(** A stored category that the schema accepts. *)
Definition Category_ok (c : Schemas.Category) : Prop :=
  Schemas.length_between 2 100 (Schemas.cat_name c) = true.

(** Every stored website and category is one the schemas accept. *)
Definition Db_ok (HttpUrl : string -> option string) (d : Database.Db) : Prop :=
  Forall (fun i => Website_ok HttpUrl (Database.fields i)) (Database.db_website d)
  /\ Forall (fun i => Category_ok (Database.fields i)) (Database.db_category d).

(** Ascending by name. *)
Definition name_le {A : Type} (name : A -> string)
           (x y : Database.Document A) : Prop :=
  String.leb (name (Database.fields x)) (name (Database.fields y)) = true.

(** The category a [CategoryOut] shows. *)
Definition shows_category (out : CategoryOut)
           (doc : Database.Document Schemas.Category) : Prop :=
  co_id out = Database._id doc
  /\ cin_name (co_payload out) = Schemas.cat_name (Database.fields doc)
  /\ cin_color (co_payload out) = Schemas.cat_color (Database.fields doc).

(** The website a [WebsiteOut] shows. *)
Definition shows_website (out : WebsiteOut)
           (doc : Database.Document Schemas.Website) : Prop :=
  wo_id out = Database._id doc
  /\ in_name (wo_payload out) = Schemas.name (Database.fields doc)
  /\ in_url (wo_payload out) = Schemas.url (Database.fields doc)
  /\ in_category_id (wo_payload out) = Schemas.category_id (Database.fields doc)
  /\ in_keywords (wo_payload out) = Schemas.keywords (Database.fields doc)
  /\ in_interval_seconds (wo_payload out)
     = Schemas.interval_seconds (Database.fields doc)
  /\ in_is_active (wo_payload out) = Schemas.is_active (Database.fields doc).

(* ================================================================== *)
(** ** main.py: [serialize] *)

Module Serialize.

(** The values the documents of the three collections hold. *)
Inductive Value :=
| VNone
| VBool (b : bool)
| VInt (n : Z)
| VStr (s : string)
| VObjectId (o : Bson.ObjectId)
| VDatetime (t : Z)
| VList (l : list string).

(** A Python [dict] with string keys: the items in insertion order. *)
Definition Dict := list (string * Value).

(** [doc.get(k)] *)
Fixpoint get (k : string) (doc : Dict) : option Value :=
  match doc with
  | [] => None
  | (k', v) :: t => if String.eqb k' k then Some v else get k t
  end.

(** [doc[k] = v]: a key that is there keeps its place, a new key goes to
    the end. *)
Fixpoint set (k : string) (v : Value) (doc : Dict) : Dict :=
  match doc with
  | [] => [(k, v)]
  | (k', v') :: t =>
      if String.eqb k' k then (k', v) :: t else (k', v') :: set k v t
  end.

(** [hasattr(val, "isoformat")]: among the values above, the datetimes. *)
Definition has_isoformat (v : Value) : bool :=
  match v with
  | VDatetime _ => true
  | _ => false
  end.

Section Serialize.

(** [str(v)] and [datetime.isoformat()] are Python's. *)
Variable str : Value -> string.
Variable isoformat : Z -> string.

(** The body of the loop: [if hasattr(val, "isoformat"): doc[key] = val.isoformat()] *)
Definition convert (doc : Dict) (item : string * Value) : Dict :=
  match snd item with
  | VDatetime t => set (fst item) (VStr (isoformat t)) doc
  | _ => doc
  end.

(** [serialize(doc)]: the dict is updated in place and returned; the loop
    runs over a copy of the items taken after [_id] is set. *)
Definition serialize (doc : Dict) : Dict :=
  match doc with
  | [] => doc
  | _ :: _ =>
      let doc1 := set "_id" (VStr (str (or_default VNone (get "_id" doc)))) doc in
      fold_left convert doc1 doc1
  end.

(** What [serialize] makes of one value. *)
Definition serialized (v : Value) : Value :=
  match v with
  | VDatetime t => VStr (isoformat t)
  | _ => v
  end.

(** An item with its value converted. *)
Definition converted (item : string * Value) : string * Value :=
  (fst item, serialized (snd item)).

End Serialize.

(** The keys of a dict. *)
Definition keys (doc : Dict) : list string := map fst doc.

End Serialize.

(* ================================================================== *)
(** ** main.py: [test_database] *)

Module Diagnostic.

(** The [db] handle as [test_database] uses it: its [name] attribute when
    it has one, and what [list_collection_names()] does, the names or the
    text of the exception it raises. *)
Record Handle := mkHandle {
  handle_name : option string;
  list_collection_names : string + list string
}.

(** The dictionary [test_database] returns. *)
Record Report := mkReport {
  backend : string;
  database : string;
  database_url : option string;
  database_name : option string;
  connection_status : string;
  collections : list string
}.

(** ["✅ Set" if os.getenv(var) else "❌ Not Set"]: a variable that is not
    set and a variable set to the empty string are both falsy. *)
Definition presence (v : option string) : string :=
  match v with
  | Some s => if PyStr.truthy s then "✅ Set"%string else "❌ Not Set"%string
  | None => "❌ Not Set"%string
  end.

(** Assignments to the keys of the response. *)
Definition set_database (r : Report) (v : string) : Report :=
  mkReport (backend r) v (database_url r) (database_name r)
    (connection_status r) (collections r).

Definition set_database_url (r : Report) (v : option string) : Report :=
  mkReport (backend r) (database r) v (database_name r)
    (connection_status r) (collections r).

Definition set_database_name (r : Report) (v : option string) : Report :=
  mkReport (backend r) (database r) (database_url r) v
    (connection_status r) (collections r).

Definition set_connection_status (r : Report) (v : string) : Report :=
  mkReport (backend r) (database r) (database_url r) (database_name r)
    v (collections r).

Definition set_collections (r : Report) (v : list string) : Report :=
  mkReport (backend r) (database r) (database_url r) (database_name r)
    (connection_status r) v.

(** [test_database()], the handler of [GET /test], given the module's
    [db] and the environment variables, assignment by assignment.  Text
    with symbols stands as its UTF-8 bytes. *)
Definition test_database (db : option Handle) (getenv : string -> option string)
  : Report :=
  let response :=
    mkReport "✅ Running" "❌ Not Available" None None "Not Connected" [] in
  let response :=
    match db with
    | Some h =>
        let response := set_database response "✅ Available" in
        let response := set_database_url response (Some "✅ Configured"%string) in
        let response :=
          set_database_name response
            (Some (or_default "✅ Connected"%string (handle_name h))) in
        let response := set_connection_status response "Connected" in
        match list_collection_names h with
        | inr names =>
            let response := set_collections response (firstn 10 names) in
            set_database response "✅ Connected & Working"
        | inl e =>
            set_database response
              ("⚠️  Connected but Error: " ++ PyStr.take 50 e)%string
        end
    | None => set_database response "⚠️  Available but not initialized"
    end in
  let response :=
    set_database_url response
      (Some (presence (getenv "DATABASE_URL"%string))) in
  set_database_name response
    (Some (presence (getenv "DATABASE_NAME"%string))).

End Diagnostic.

(** ** More sample data *)

Module Fixture.

Local Open Scope string_scope.

(** A stand-in for [str(v)] on the values an [_id] takes. *)
Definition str (v : Serialize.Value) : string :=
  match v with
  | Serialize.VStr s => s
  | Serialize.VObjectId o => o
  | Serialize.VNone => "None"
  | Serialize.VBool true => "True"
  | Serialize.VBool false => "False"
  | _ => "?"
  end.

(** A stand-in for [isoformat()]. *)
Definition isoformat (t : Z) : string :=
  if (t =? 0)%Z then "1970-01-01T00:00:00" else "2024-01-01T00:00:00".

(** A stored check result as a dict. *)
Definition doc : Serialize.Dict :=
  [("_id", Serialize.VObjectId Sample.site_id);
   ("is_up", Serialize.VBool true);
   ("created_at", Serialize.VDatetime 0)].

(** The site answers [status] with a body that cannot be decoded. *)
Definition undecodable (status ms now : Z) : Env :=
  mkEnv (fun _ => Undecodable status ms "decoding with 'idna' codec failed") now.

(** A second site, with keywords in several cases, an empty keyword, a
    keyword that does not occur and a keyword given twice. *)
Definition portal_id : string := "64b7f0c2a1b2c3d4e5f60719".

Definition portal : Database.Document Schemas.Website :=
  Database.mkDocument portal_id
    (Schemas.Build_Website "Portal" "https://portal.example/" None
       ["Example"; "Welcome"; ""; "nope"; "welcome"; "Welcome"] 300 true)
    1500.

(** Two stored websites, no check yet. *)
Definition portal_world : World :=
  mkWorld (Database.mkDb [] [Sample.site; portal] [] 2) [].

(** A category body. *)
Definition news : CategoryBody := mkCategoryBody (Some "News") None.

(** A second category body, earlier in the alphabet. *)
Definition blogs : CategoryBody := mkCategoryBody (Some "Blogs") (Some "#ff0000").

(** A website body, late in the alphabet. *)
Definition zebra : WebsiteBody :=
  mkWebsiteBody (Some "Zebra") (Some "https://zebra.example") None None
    (Some 60) (Some false).

(** The store after the categories News and Blogs were created, in this
    order. *)
Definition two_categories : World :=
  snd (post_api_categories (Sample.refusing 1100) blogs
         (snd (post_api_categories (Sample.refusing 1000) news
                 Sample.empty_world))).

(** The store after the websites Zebra and Example were created, in this
    order. *)
Definition two_websites : World :=
  snd (post_api_websites Sample.HttpUrl (Sample.refusing 1100) Sample.body
         (snd (post_api_websites Sample.HttpUrl (Sample.refusing 1000) zebra
                 Sample.empty_world))).

End Fixture.

(* ================================================================== *)
(** * Properties *)

(** ** Strings *)

Section StringFacts.

Local Open Scope string_scope.

Lemma starts_with_spec (needle hay : string) :
  PyStr.starts_with needle hay = true <-> exists post, hay = needle ++ post.
Proof.
  revert hay.
  induction needle as [|a n IH]; intros hay; simpl.
  - split; [intros _; now exists hay | reflexivity].
  - destruct hay as [|b h].
    + split; [discriminate | intros [post H]; discriminate].
    + rewrite andb_true_iff, Ascii.eqb_eq, IH.
      split.
      * intros [-> [post ->]]. now exists post.
      * intros [post H]. injection H as -> ->. split; [reflexivity | now exists post].
Qed.

Lemma contains_spec (needle hay : string) :
  PyStr.contains needle hay = true <-> PyStr.Substring needle hay.
Proof.
  unfold PyStr.Substring.
  induction hay as [|b h IH]; simpl.
  - rewrite orb_false_r, starts_with_spec.
    split.
    + intros [post H]. now exists "", post.
    + intros [pre [post H]].
      destruct pre; simpl in H; [now exists post | discriminate].
  - rewrite orb_true_iff, starts_with_spec, IH.
    split.
    + intros [[post H] | [pre [post H]]].
      * now exists "", post.
      * exists (String b pre), post. simpl. now rewrite H.
    + intros [pre [post H]].
      destruct pre as [|c pre]; simpl in H.
      * left. now exists post.
      * right. injection H as _ H. now exists pre, post.
Qed.

Lemma truthy_spec (s : string) : PyStr.truthy s = true <-> s <> "".
Proof.
  destruct s; simpl; split; intro H; try reflexivity; try discriminate.
  now elim H.
Qed.

Lemma lower_empty (s : string) : PyStr.lower s = "" -> s = "".
Proof. destruct s; [reflexivity | discriminate]. Qed.

Lemma Substring_of_empty (needle : string) :
  PyStr.Substring needle "" -> needle = "".
Proof.
  intros [pre [post H]].
  destruct pre; simpl in H; [|discriminate].
  destruct needle; [reflexivity | discriminate].
Qed.

Lemma take_length (n : nat) (s : string) : (String.length (PyStr.take n s) <= n)%nat.
Proof.
  revert s. induction n as [|n IH]; intros [|c t]; simpl; try lia.
  specialize (IH t). lia.
Qed.

Lemma take_prefix (n : nat) (s : string) :
  exists rest, s = PyStr.take n s ++ rest.
Proof.
  revert s. induction n as [|n IH]; intros s.
  - exists s. now destruct s.
  - destruct s as [|c t]; simpl.
    + now exists "".
    + destruct (IH t) as [rest H]. exists rest. now rewrite <- H.
Qed.

End StringFacts.

(** ** Lists *)

Lemma Subseq_filter {A : Type} (p : A -> bool) (l : list A) :
  Subseq (filter p l) l.
Proof.
  induction l as [|x l IH]; simpl.
  - constructor.
  - destruct (p x); now constructor.
Qed.

Lemma count_occ_filter (p : string -> bool) (l : list string) (x : string) :
  count_occ string_dec (filter p l) x
  = if p x then count_occ string_dec l x else O.
Proof.
  induction l as [|y l IH]; simpl.
  - now destruct (p x).
  - destruct (string_dec y x) as [->|Hne].
    + destruct (p x) eqn:Hp; simpl.
      * destruct (string_dec x x); [now rewrite IH | contradiction].
      * exact IH.
    + destruct (p y); simpl; [|exact IH].
      destruct (string_dec y x); [contradiction | exact IH].
Qed.

Lemma fold_left_add_shift (l : list Z) (a : Z) :
  fold_left Z.add l a = a + fold_left Z.add l 0.
Proof.
  revert a. induction l as [|x l IH]; intros a; simpl.
  - lia.
  - rewrite (IH (a + x)), (IH x). lia.
Qed.

Lemma py_sum_cons (x : Z) (l : list Z) : py_sum (x :: l) = x + py_sum l.
Proof. unfold py_sum. simpl. now rewrite fold_left_add_shift. Qed.

Lemma py_sum_ones {A : Type} (l : list A) :
  py_sum (map (fun _ => 1) l) = py_len l.
Proof.
  unfold py_len.
  induction l as [|x l IH].
  - reflexivity.
  - simpl map. rewrite py_sum_cons, IH. simpl List.length. lia.
Qed.

Lemma filter_length_split {A : Type} (p : A -> bool) (l : list A) :
  (List.length (filter p l) + List.length (filter (fun x => negb (p x)) l)
   = List.length l)%nat.
Proof.
  induction l as [|x l IH]; simpl.
  - reflexivity.
  - destruct (p x); simpl; lia.
Qed.

(** The keyword loop computes a filter of the keyword list. *)
Lemma scan_keywords_filter (content : string) (keywords : list string) :
  scan_keywords content keywords = filter (keyword_found content) keywords.
Proof.
  unfold scan_keywords.
  assert (H : forall acc,
             fold_left
               (fun matches kw =>
                  if PyStr.truthy kw && PyStr.contains (PyStr.lower kw) content
                  then matches ++ [kw] else matches) keywords acc
             = acc ++ filter (keyword_found content) keywords).
  { induction keywords as [|kw l IH]; intros acc; simpl.
    - now rewrite app_nil_r.
    - unfold keyword_found at 1.
      destruct (PyStr.truthy kw && PyStr.contains (PyStr.lower kw) content).
      + rewrite IH, <- app_assoc. reflexivity.
      + apply IH. }
  apply (H []).
Qed.

(** A keyword passes the test on the content of a response exactly when it
    is not empty, the response is not a 4xx or 5xx one, and the keyword
    occurs in the body, case ignored. *)
Lemma keyword_found_response (resp : Response) (kw : string) :
  keyword_found (response_content resp) kw = true
  <-> kw <> EmptyString
      /\ ~ (400 <= resp_status_code resp < 600)
      /\ PyStr.Substring (PyStr.lower kw) (PyStr.lower (resp_text resp)).
Proof.
  unfold keyword_found, response_content, Response_bool.
  rewrite andb_true_iff, truthy_spec, contains_spec.
  destruct ((400 <=? resp_status_code resp) && (resp_status_code resp <? 600))
    eqn:Hs; simpl.
  - apply andb_true_iff in Hs. destruct Hs as [H1 H2].
    apply Z.leb_le in H1. apply Z.ltb_lt in H2.
    split.
    + intros [Hkw Hsub]. apply Substring_of_empty, lower_empty in Hsub.
      contradiction.
    + intros [_ [Hno _]]. lia.
  - assert (Hout : ~ (400 <= resp_status_code resp < 600)).
    { intros [H1 H2]. apply Z.leb_le in H1. apply Z.ltb_lt in H2.
      rewrite H1, H2 in Hs. discriminate. }
    destruct (resp_text resp) as [|c t] eqn:Ht; simpl.
    + split.
      * intros [Hkw Hsub]. apply Substring_of_empty, lower_empty in Hsub.
        contradiction.
      * intros [Hkw [_ Hsub]]. now split.
    + split.
      * intros [Hkw Hsub]. now repeat split.
      * intros [Hkw [_ Hsub]]. now split.
Qed.

(** ** The three ways [run_check] ends *)

(** A string that is not 24 characters long is no identifier. *)
Lemma ObjectId_of_str_length (id_str : string) :
  String.length id_str <> 24%nat -> Bson.ObjectId_of_str id_str = None.
Proof.
  intros H. unfold Bson.ObjectId_of_str.
  destruct (Nat.eqb_spec (String.length id_str) 24); [contradiction | reflexivity].
Qed.

Lemma run_check_invalid (env : Env) (website_id : string) (w : World) :
  Bson.ObjectId_of_str website_id = None ->
  run_check env website_id w
  = (inl (HTTPException 400 "Invalid ID format"), w).
Proof.
  intros H. unfold run_check, bind, oid. now rewrite H.
Qed.

Lemma run_check_missing (env : Env) (website_id : string) (w : World)
      (o : Bson.ObjectId) :
  Bson.ObjectId_of_str website_id = Some o ->
  Database.find_one o (Database.db_website (db w)) = None ->
  run_check env website_id w
  = (inl (HTTPException 404 "Website not found"), w).
Proof.
  intros Ho Hf. unfold run_check, bind, oid, query, ret. rewrite Ho.
  cbn. now rewrite Hf.
Qed.

Lemma run_check_found (env : Env) (website_id : string) (w : World)
      (o : Bson.ObjectId) (item : Database.Document Schemas.Website) :
  Bson.ObjectId_of_str website_id = Some o ->
  Database.find_one o (Database.db_website (db w)) = Some item ->
  run_check env website_id w
  = (inr (mkCheckResponse (returned_of env website_id item w)),
     mkWorld
       (Database.insert_one Database.checkresult
          (stored_of env website_id item w) (db w))
       (probes w ++ [Schemas.url (Database.fields item)])).
Proof.
  intros Ho Hf. unfold run_check, bind, oid, query, ret. rewrite Ho.
  cbn. rewrite Hf. reflexivity.
Qed.

Lemma returned_shows_stored (env : Env) (website_id : string)
      (item : Database.Document Schemas.Website) (w : World) :
  shows (returned_of env website_id item w) (stored_of env website_id item w).
Proof. repeat split. Qed.

(** A request that is answered with a result had a website to check. *)
Lemma run_check_returned (env : Env) (website_id : string) (w w' : World)
      (r : CheckResponse) :
  run_check env website_id w = (inr r, w') ->
  exists o item,
    Bson.ObjectId_of_str website_id = Some o
    /\ Database.find_one o (Database.db_website (db w)) = Some item.
Proof.
  intros H.
  destruct (Bson.ObjectId_of_str website_id) as [o|] eqn:Ho.
  - destruct (Database.find_one o (Database.db_website (db w))) as [item|] eqn:Hf.
    + now exists o, item.
    + rewrite (run_check_missing env website_id w o Ho Hf) in H. discriminate.
  - rewrite (run_check_invalid env website_id w Ho) in H. discriminate.
Qed.

(** ** Check execution *)




(** C2, as the claim states it, fails on an error page: the site answers
    404 with a body that contains the keyword, and the keyword is not
    reported. *)
Lemma C2_counterexample :
  exists out w',
    run_check (Sample.answering 404 12 2000) Sample.site_id Sample.world
    = (inr (mkCheckResponse out), w')
    /\ In "Welcome"%string (Schemas.keywords (Database.fields Sample.site))
    /\ "Welcome"%string <> EmptyString
    /\ PyStr.Substring (PyStr.lower "Welcome") (PyStr.lower "Welcome to Example")
    /\ ~ In "Welcome"%string (keyword_matches out).
Proof.
  eexists _, _.
  split.
  { exact (run_check_found (Sample.answering 404 12 2000) Sample.site_id
             Sample.world Sample.site_id Sample.site eq_refl eq_refl). }
  split; [now left|].
  split; [discriminate|].
  split; [now exists EmptyString, " to example"%string|].
  vm_compute. tauto.
Qed.

(** C2 (amended): for every keyword list and every response whose text
    is read without error, a keyword appears in [keyword_matches] exactly
    when it is non-empty, the status code of the response is outside
    [400, 600), and its lowercased form is a substring of the lowercased
    body; the matches keep the order of the keyword list, and a matching
    keyword occurs as often in the matches as in the keyword list.  For a
    response whose text cannot be read there is no match. *)
Theorem C2_keyword_matches_of_answer
        (env : Env) (website_id : string) (w : World) (o : Bson.ObjectId)
        (item : Database.Document Schemas.Website) :
  Bson.ObjectId_of_str website_id = Some o ->
  Database.find_one o (Database.db_website (db w)) = Some item ->
  exists out w',
    run_check env website_id w = (inr (mkCheckResponse out), w')
    /\ (forall resp elapsed_ms,
           network env (Schemas.url (Database.fields item))
           = Returned resp elapsed_ms ->
           (forall kw,
               In kw (keyword_matches out)
               <-> In kw (Schemas.keywords (Database.fields item))
                   /\ kw <> EmptyString
                   /\ ~ (400 <= resp_status_code resp < 600)
                   /\ PyStr.Substring (PyStr.lower kw)
                        (PyStr.lower (resp_text resp)))
           /\ Subseq (keyword_matches out)
                (Schemas.keywords (Database.fields item))
           /\ (forall kw,
                  In kw (keyword_matches out) ->
                  count_occ string_dec (keyword_matches out) kw
                  = count_occ string_dec
                      (Schemas.keywords (Database.fields item)) kw))
    /\ (forall status elapsed_ms message,
           network env (Schemas.url (Database.fields item))
           = Undecodable status elapsed_ms message ->
           keyword_matches out = []).
Proof.
  intros Ho Hf.
  eexists _, _.
  split; [exact (run_check_found env website_id w o item Ho Hf)|].
  unfold returned_of, vars_of. cbn [keyword_matches].
  split.
  - intros resp ms Hnet. rewrite Hnet. cbn [check_outcome v_matches].
    rewrite scan_keywords_filter.
    split; [|split].
    + intros kw. rewrite filter_In, keyword_found_response. reflexivity.
    + apply Subseq_filter.
    + intros kw Hin. apply filter_In in Hin. destruct Hin as [_ Hp].
      now rewrite count_occ_filter, Hp.
  - intros status ms message Hnet. rewrite Hnet. unfold check_outcome.
    destruct (Response_bool (mkResponse status EmptyString)); cbn [v_matches].
    + reflexivity.
    + rewrite scan_keywords_filter.
      induction (Schemas.keywords (Database.fields item)) as [|kw t IH];
        [reflexivity|].
      simpl. unfold keyword_found at 1.
      destruct kw as [|c k]; [exact IH|].
      simpl. exact IH.
Qed.

(** What the second sample site reports for the sample body: the
    matches in the order of the keyword list, the repeated keyword
    twice. *)
Example keyword_matches_of_portal :
  keyword_matches
    (returned_of (Sample.answering 200 100 2000) Fixture.portal_id
       Fixture.portal Fixture.portal_world)
  = ["Example"%string; "Welcome"%string; "welcome"%string; "Welcome"%string].
Proof. reflexivity. Qed.

Lemma C2_witness :
  exists out w',
    run_check (Sample.answering 200 100 2000) Fixture.portal_id
      Fixture.portal_world = (inr (mkCheckResponse out), w')
    /\ (forall resp elapsed_ms,
           Returned (mkResponse 200 "Welcome to Example") 100
           = Returned resp elapsed_ms ->
           (forall kw,
               In kw (keyword_matches out)
               <-> In kw ["Example"%string; "Welcome"%string; EmptyString;
                          "nope"%string; "welcome"%string; "Welcome"%string]
                   /\ kw <> EmptyString
                   /\ ~ (400 <= resp_status_code resp < 600)
                   /\ PyStr.Substring (PyStr.lower kw)
                        (PyStr.lower (resp_text resp)))
           /\ Subseq (keyword_matches out)
                ["Example"%string; "Welcome"%string; EmptyString;
                 "nope"%string; "welcome"%string; "Welcome"%string]
           /\ (forall kw,
                  In kw (keyword_matches out) ->
                  count_occ string_dec (keyword_matches out) kw
                  = count_occ string_dec
                      ["Example"%string; "Welcome"%string; EmptyString;
                       "nope"%string; "welcome"%string; "Welcome"%string] kw))
    /\ (forall status elapsed_ms message,
           Returned (mkResponse 200 "Welcome to Example") 100
           = Undecodable status elapsed_ms message ->
           keyword_matches out = []).
Proof.
  exact (C2_keyword_matches_of_answer
           (Sample.answering 200 100 2000) Fixture.portal_id
           Fixture.portal_world Fixture.portal_id Fixture.portal
           eq_refl eq_refl).
Defined.

(** C3: when the probe raises before any response is received, the
    request is still answered with a result (status 200), stored as it is
    returned: [status_code] absent, [is_up] false, no keyword match, and
    [error] present, the first 500 characters at most of the text of the
    exception. *)
Theorem C3_probe_failure_is_a_result
        (env : Env) (website_id : string) (w : World) (o : Bson.ObjectId)
        (item : Database.Document Schemas.Website) (message : string) :
  Bson.ObjectId_of_str website_id = Some o ->
  Database.find_one o (Database.db_website (db w)) = Some item ->
  network env (Schemas.url (Database.fields item)) = Raised message ->
  exists out doc w',
    run_check env website_id w = (inr (mkCheckResponse out), w')
    /\ http_status (fst (run_check env website_id w)) = 200
    /\ check_results w' = check_results w ++ [doc]
    /\ shows out doc
    /\ status_code out = None
    /\ is_up out = false
    /\ keyword_matches out = []
    /\ exists e rest,
        error out = Some e
        /\ (String.length e <= 500)%nat
        /\ message = (e ++ rest)%string.
Proof.
  intros Ho Hf Hnet.
  pose proof (run_check_found env website_id w o item Ho Hf) as Hrun.
  eexists _, _, _.
  split; [exact Hrun|].
  split; [now rewrite Hrun|].
  split; [reflexivity|].
  split; [apply returned_shows_stored|].
  unfold returned_of, vars_of. rewrite Hnet. cbn.
  repeat (split; [reflexivity|]).
  destruct (take_prefix 500 message) as [rest Hrest].
  exists (PyStr.take 500 message), rest.
  split; [reflexivity|].
  split; [apply take_length | exact Hrest].
Qed.

Lemma C3_witness :
  exists out doc w',
    run_check (Sample.refusing 2000) Sample.site_id Sample.world
    = (inr (mkCheckResponse out), w')
    /\ http_status (fst (run_check (Sample.refusing 2000) Sample.site_id
                           Sample.world)) = 200
    /\ check_results w' = check_results Sample.world ++ [doc]
    /\ shows out doc
    /\ status_code out = None
    /\ is_up out = false
    /\ keyword_matches out = []
    /\ exists e rest,
        error out = Some e
        /\ (String.length e <= 500)%nat
        /\ "Connection refused"%string = (e ++ rest)%string.
Proof.
  exact (C3_probe_failure_is_a_result
           (Sample.refusing 2000) Sample.site_id Sample.world
           Sample.site_id Sample.site "Connection refused"
           eq_refl eq_refl eq_refl).
Defined.





(** C7, as the claim states it, fails on an id that is not the text of an
    identifier: ["zzz"] names no stored website, and the request is
    answered with 400, not with 404. *)
Lemma C7_counterexample :
  ~ resolves "zzz" Sample.world
  /\ fst (run_check (Sample.refusing 2000) "zzz" Sample.world)
     = inl (HTTPException 400 "Invalid ID format")
  /\ http_status (fst (run_check (Sample.refusing 2000) "zzz" Sample.world))
     <> 404.
Proof.
  split; [|split].
  - intros [o [item [Ho _]]]. discriminate Ho.
  - reflexivity.
  - cbn. discriminate.
Qed.

(** An id of 24 characters with whitespace between its digits is one
    [ObjectId] accepts: it names no stored website and is answered with
    404. *)
Example run_check_id_with_spaces :
  run_check (Sample.refusing 2000) "64b7f0c2 a1b2c3d4 e5f607" Sample.world
  = (inl (HTTPException 404 "Website not found"), Sample.world).
Proof. reflexivity. Qed.

(** C7 (amended): an id that [ObjectId] refuses, any string that is not
    24 characters long among them, is refused with 400, and an id that
    [ObjectId] accepts but that names no stored website with 404
    "not found", the world unchanged in both cases (no probe, nothing
    stored); for an id that names a stored website [run_check] probes its
    URL exactly once, stores exactly one check result, leaves the other
    collections alone and returns the stored result. *)
Theorem C7_check_by_id (env : Env) (website_id : string) (w : World) :
  (String.length website_id <> 24%nat ->
   run_check env website_id w
   = (inl (HTTPException 400 "Invalid ID format"), w))
  /\ (Bson.ObjectId_of_str website_id = None ->
      run_check env website_id w
      = (inl (HTTPException 400 "Invalid ID format"), w))
  /\ (forall o,
         Bson.ObjectId_of_str website_id = Some o ->
         Database.find_one o (Database.db_website (db w)) = None ->
         run_check env website_id w
         = (inl (HTTPException 404 "Website not found"), w)
         /\ http_status (fst (run_check env website_id w)) = 404)
  /\ (forall o item,
         Bson.ObjectId_of_str website_id = Some o ->
         Database.find_one o (Database.db_website (db w)) = Some item ->
         exists out doc w',
           run_check env website_id w = (inr (mkCheckResponse out), w')
           /\ probes w' = probes w ++ [Schemas.url (Database.fields item)]
           /\ check_results w' = check_results w ++ [doc]
           /\ Database.db_website (db w') = Database.db_website (db w)
           /\ Database.db_category (db w') = Database.db_category (db w)
           /\ shows out doc
           /\ created_at out = None).
Proof.
  split; [|split; [|split]].
  - intros Hlen. apply run_check_invalid. now apply ObjectId_of_str_length.
  - apply run_check_invalid.
  - intros o Ho Hf.
    pose proof (run_check_missing env website_id w o Ho Hf) as Hrun.
    split; [exact Hrun | now rewrite Hrun].
  - intros o item Ho Hf.
    eexists _, _, _.
    split; [exact (run_check_found env website_id w o item Ho Hf)|].
    repeat split.
Qed.

Lemma C7_witness :
  run_check (Sample.refusing 2000) "64b7f0c2a1b2c3d4e5f6071" Sample.world
  = (inl (HTTPException 400 "Invalid ID format"), Sample.world)
  /\ run_check (Sample.refusing 2000) "64b7f0c2a1b2c3d4e5f60719" Sample.world
     = (inl (HTTPException 404 "Website not found"), Sample.world)
  /\ exists out doc w',
      run_check (Sample.refusing 2000) Sample.site_id Sample.world
      = (inr (mkCheckResponse out), w')
      /\ probes w' = probes Sample.world ++ ["https://example.com/"%string]
      /\ check_results w' = check_results Sample.world ++ [doc]
      /\ Database.db_website (db w') = Database.db_website (db Sample.world)
      /\ Database.db_category (db w') = Database.db_category (db Sample.world)
      /\ shows out doc
      /\ created_at out = None.
Proof.
  split; [|split].
  - apply (proj1 (C7_check_by_id (Sample.refusing 2000)
                    "64b7f0c2a1b2c3d4e5f6071" Sample.world)).
    simpl. lia.
  - exact (proj1 (proj1 (proj2 (proj2 (C7_check_by_id (Sample.refusing 2000)
                                  "64b7f0c2a1b2c3d4e5f60719" Sample.world)))
                    "64b7f0c2a1b2c3d4e5f60719"%string eq_refl eq_refl)).
  - exact (proj2 (proj2 (proj2 (C7_check_by_id (Sample.refusing 2000)
                                  Sample.site_id Sample.world)))
             Sample.site_id Sample.site eq_refl eq_refl).
Defined.

(** ** Summary *)

Lemma summary_value (w : World) :
  summary w
  = (inr (mkSummary
            (Database.count_documents (Database.db_website (db w)))
            (Database.count_documents (Database.db_category (db w)))
            (py_len (recent_window (db w)))
            (count_up (recent_window (db w)))
            (py_len (recent_window (db w)) - count_up (recent_window (db w)))
            (average (response_times (recent_window (db w))))),
     w).
Proof. reflexivity. Qed.

Lemma recent_window_length (d : Database.Db) :
  py_len (recent_window d) <= 200.
Proof.
  unfold recent_window, Database.limit, py_len.
  change (200 =? 0) with false. cbv iota.
  pose proof (firstn_le_length (Z.to_nat (Z.abs 200))
                (Database.sort_created_at_desc (Database.db_checkresult d))).
  lia.
Qed.

Lemma count_up_length (recent : list (Database.Document Schemas.CheckResult)) :
  count_up recent
  = py_len (filter (fun r => Schemas.is_up (Database.fields r)) recent).
Proof. unfold count_up. apply py_sum_ones. Qed.

(** The response times that enter the average are the recorded ones
    other than zero. *)
Lemma response_times_In (recent : list (Database.Document Schemas.CheckResult))
      (n : Z) :
  In n (response_times recent)
  <-> n <> 0
      /\ exists r, In r recent
                   /\ Schemas.response_time_ms (Database.fields r) = Some n.
Proof.
  induction recent as [|r t IH]; simpl.
  - split; [tauto | intros [_ [r [[] _]]]].
  - destruct (Schemas.response_time_ms (Database.fields r)) as [m|] eqn:Hm; simpl.
    + destruct (Z.eqb_spec m 0) as [Hz|Hz]; simpl.
      * rewrite IH. split.
        -- intros [Hn [x [Hx Hrt]]]. split; [exact Hn|]. exists x. tauto.
        -- intros [Hn [x [[<-|Hx] Hrt]]].
           ++ rewrite Hm in Hrt. injection Hrt as <-. contradiction.
           ++ split; [exact Hn|]. now exists x.
      * rewrite IH. split.
        -- intros [<-|[Hn [x [Hx Hrt]]]].
           ++ split; [exact Hz|]. exists r. tauto.
           ++ split; [exact Hn|]. exists x. tauto.
        -- intros [Hn [x [[<-|Hx] Hrt]]].
           ++ rewrite Hm in Hrt. injection Hrt as <-. now left.
           ++ right. split; [exact Hn|]. now exists x.
    + rewrite IH. split.
      * intros [Hn [x [Hx Hrt]]]. split; [exact Hn|]. exists x. tauto.
      * intros [Hn [x [[<-|Hx] Hrt]]].
        -- rewrite Hm in Hrt. discriminate.
        -- split; [exact Hn|]. now exists x.
Qed.

(** Scenario E of the spec: two checks up at 100 ms and 200 ms and one
    check down give [up = 2], [down = 1] and an average of 150 ms. *)
Example summary_scenario_E :
  fst (summary Sample.scenario_E) = inr (mkSummary 1 0 3 2 1 (Some 150)).
Proof. reflexivity. Qed.

(** C5: the code misses the claim on a window that holds a response time
    of 0 ms.  After one check answered in less than a millisecond the
    window holds a result with [response_time_ms = 0], and the summary
    reports no average: the truthiness test of line 228 drops the zero
    together with the absent values. *)
Theorem C5_zero_response_time_left_out :
  exists r s,
    In r (recent_window (db Sample.fast_check))
    /\ Schemas.is_up (Database.fields r) = true
    /\ Schemas.response_time_ms (Database.fields r) = Some 0
    /\ summary Sample.fast_check = (inr s, Sample.fast_check)
    /\ up s = 1
    /\ down s = 0
    /\ avg_response_time_ms s = None.
Proof.
  eexists _, _.
  split; [left; reflexivity|].
  split; [reflexivity|].
  split; [reflexivity|].
  split; [apply summary_value|].
  repeat split.
Qed.

(** C10: for every state of the store the summary counts at most 200
    recent checks, and each of them once, as up or as down:
    [up + down = recent_checks], where [up] is the number of results of
    the window with [is_up] true and [down] the number of the others. *)
Theorem C10_summary_partitions_window (w : World) :
  exists s,
    summary w = (inr s, w)
    /\ recent_checks s = py_len (recent_window (db w))
    /\ recent_checks s <= 200
    /\ up s + down s = recent_checks s
    /\ up s
       = py_len (filter (fun r => Schemas.is_up (Database.fields r))
                   (recent_window (db w)))
    /\ down s
       = py_len (filter (fun r => negb (Schemas.is_up (Database.fields r)))
                   (recent_window (db w))).
Proof.
  eexists. split; [apply summary_value|].
  cbn [up down recent_checks].
  split; [reflexivity|].
  split; [apply recent_window_length|].
  split; [lia|].
  split; [apply count_up_length|].
  rewrite count_up_length. unfold py_len.
  pose proof (filter_length_split
                (fun r => Schemas.is_up (Database.fields r))
                (recent_window (db w))).
  lia.
Qed.

(** Without a response time other than zero in the window there is no
    average, and conversely. *)
Lemma average_absent_iff (recent : list (Database.Document Schemas.CheckResult)) :
  average (response_times recent) = None
  <-> forall r, In r recent ->
                int_truthy (Schemas.response_time_ms (Database.fields r)) = false.
Proof.
  induction recent as [|r t IH]; simpl.
  - split; [intros _ r [] | reflexivity].
  - destruct (Schemas.response_time_ms (Database.fields r)) as [m|] eqn:Hm; simpl.
    + destruct (Z.eqb_spec m 0) as [Hz|Hz]; simpl.
      * rewrite IH. split.
        -- intros H x [<-|Hx]; [rewrite Hm; simpl; now rewrite Hz | now apply H].
        -- intros H x Hx. apply H. now right.
      * split; [discriminate|].
        intros H. specialize (H r (or_introl eq_refl)).
        rewrite Hm in H. simpl in H.
        destruct (Z.eqb_spec m 0); [contradiction | discriminate].
    + rewrite IH. split.
      * intros H x [<-|Hx]; [now rewrite Hm | now apply H].
      * intros H x Hx. apply H. now right.
Qed.

(** ** Website creation *)

Section WebsiteCreation.

Variable HttpUrl : string -> option string.

Lemma post_api_websites_out_of_range (env : Env) (b : WebsiteBody) (w : World)
      (i : Z) :
  body_interval_seconds b = Some i ->
  i < 30 \/ 86400 < i ->
  refused (post_api_websites HttpUrl env b w) w.
Proof.
  intros Hi Hout.
  assert (Hv : WebsiteIn_validate HttpUrl b = None).
  { unfold WebsiteIn_validate. rewrite Hi. simpl or_default.
    assert (Hb : Schemas.int_between 30 86400 i = false).
    { unfold Schemas.int_between. apply andb_false_iff.
      destruct Hout; [left; apply Z.leb_gt | right; apply Z.leb_gt]; lia. }
    rewrite Hb.
    destruct (body_name b), (body_url b) as [u|]; try reflexivity.
    now destruct (HttpUrl u). }
  unfold refused, post_api_websites. rewrite Hv. split; reflexivity.
Qed.

Lemma post_api_websites_in_range (env : Env) (b : WebsiteBody) (w : World)
      (n u u' : string) (i : Z) :
  body_name b = Some n ->
  body_url b = Some u ->
  HttpUrl u = Some u' ->
  Schemas.length_between 2 150 n = true ->
  or_default 300 (body_interval_seconds b) = i ->
  30 <= i <= 86400 ->
  created_with_interval (post_api_websites HttpUrl env b w) w i.
Proof.
  intros Hn Hu Hp Hlen Hi Hrange.
  assert (Hb : Schemas.int_between 30 86400 i = true).
  { unfold Schemas.int_between. apply andb_true_iff.
    split; apply Z.leb_le; lia. }
  unfold created_with_interval, post_api_websites, WebsiteIn_validate.
  rewrite Hn, Hu, Hp, Hi, Hb.
  unfold create_website, Schemas.Website_new. cbn [in_name in_interval_seconds].
  rewrite Hlen, Hb. cbn.
  eexists _, _, _. repeat split.
Qed.

Lemma post_api_websites_name_length (env : Env) (b : WebsiteBody) (w : World)
      (n u u' : string) :
  body_name b = Some n ->
  body_url b = Some u ->
  HttpUrl u = Some u' ->
  Schemas.int_between 30 86400 (or_default 300 (body_interval_seconds b)) = true ->
  Schemas.length_between 2 150 n = false ->
  post_api_websites HttpUrl env b w = (inl ValidationError, w).
Proof.
  intros Hn Hu Hp Hb Hlen.
  unfold post_api_websites, WebsiteIn_validate.
  rewrite Hn, Hu, Hp, Hb.
  unfold create_website, Schemas.Website_new. cbn [in_name in_interval_seconds].
  now rewrite Hlen.
Qed.

End WebsiteCreation.

(** The sibling endpoint: a category name of the wrong length is refused
    by the request model itself. *)
Lemma post_api_categories_name_length (env : Env) (b : CategoryBody)
      (w : World) (n : string) :
  cbody_name b = Some n ->
  Schemas.length_between 2 100 n = false ->
  refused (post_api_categories env b w) w.
Proof.
  intros Hn Hlen.
  unfold refused, post_api_categories, CategoryIn_validate.
  rewrite Hn, Hlen. split; reflexivity.
Qed.

(** C6: on website creation an [interval_seconds] of 29 or of 86401 is
    refused as a validation error (422, nothing stored), whatever the rest
    of the body; in a body that is otherwise acceptable the values 30 and
    86400 are accepted, stored and returned, and a missing
    [interval_seconds] is stored and returned as 300. *)
Theorem C6_interval_seconds_boundaries
        (HttpUrl : string -> option string) (env : Env) (b : WebsiteBody)
        (w : World) :
  refused (post_api_websites HttpUrl env (with_interval b (Some 29)) w) w
  /\ refused (post_api_websites HttpUrl env (with_interval b (Some 86401)) w) w
  /\ (forall n u u',
         body_name b = Some n ->
         body_url b = Some u ->
         HttpUrl u = Some u' ->
         Schemas.length_between 2 150 n = true ->
         created_with_interval
           (post_api_websites HttpUrl env (with_interval b (Some 30)) w) w 30
         /\ created_with_interval
              (post_api_websites HttpUrl env (with_interval b (Some 86400)) w)
              w 86400
         /\ created_with_interval
              (post_api_websites HttpUrl env (with_interval b None) w) w 300).
Proof.
  split; [|split].
  - apply (post_api_websites_out_of_range HttpUrl env _ w 29); [reflexivity | lia].
  - apply (post_api_websites_out_of_range HttpUrl env _ w 86401); [reflexivity | lia].
  - intros n u u' Hn Hu Hp Hlen.
    repeat split;
      apply (post_api_websites_in_range HttpUrl env _ w n u u');
      try assumption; try reflexivity; lia.
Qed.

Lemma C6_witness :
  created_with_interval
    (post_api_websites Sample.HttpUrl (Sample.refusing 1000)
       (with_interval Sample.body (Some 30)) Sample.empty_world)
    Sample.empty_world 30
  /\ created_with_interval
       (post_api_websites Sample.HttpUrl (Sample.refusing 1000)
          (with_interval Sample.body (Some 86400)) Sample.empty_world)
       Sample.empty_world 86400
  /\ created_with_interval
       (post_api_websites Sample.HttpUrl (Sample.refusing 1000)
          (with_interval Sample.body None) Sample.empty_world)
       Sample.empty_world 300.
Proof.
  exact (proj2 (proj2 (C6_interval_seconds_boundaries Sample.HttpUrl
                         (Sample.refusing 1000) Sample.body Sample.empty_world))
           "Example"%string "https://example.com"%string
           "https://example.com"%string eq_refl eq_refl eq_refl eq_refl).
Defined.

(** C8: the code misses the claim.  A body that is acceptable but for a
    name shorter than 2 or longer than 150 characters passes the request
    model, whose [name] carries no length; the schema constructor then
    raises inside the handler and the answer is 500, not a 4xx
    validation error.  No website is created. *)
Theorem C8_name_length_is_a_server_error
        (HttpUrl : string -> option string) (env : Env) (b : WebsiteBody)
        (w : World) (n u u' : string) :
  body_url b = Some u ->
  HttpUrl u = Some u' ->
  Schemas.int_between 30 86400 (or_default 300 (body_interval_seconds b)) = true ->
  (String.length n < 2 \/ 150 < String.length n)%nat ->
  post_api_websites HttpUrl env (with_name b n) w = (inl ValidationError, w)
  /\ http_status (fst (post_api_websites HttpUrl env (with_name b n) w)) = 500.
Proof.
  intros Hu Hp Hb Hlen.
  assert (Hrun : post_api_websites HttpUrl env (with_name b n) w
                 = (inl ValidationError, w)).
  { apply (post_api_websites_name_length HttpUrl env _ w n u u');
      try assumption; try reflexivity.
    unfold Schemas.length_between. apply andb_false_iff.
    destruct Hlen; [left | right]; apply Nat.leb_gt; lia. }
  split; [exact Hrun | now rewrite Hrun].
Qed.

Lemma C8_witness :
  post_api_websites Sample.HttpUrl (Sample.refusing 1000)
    (with_name Sample.body "a") Sample.empty_world
  = (inl ValidationError, Sample.empty_world)
  /\ http_status
       (fst (post_api_websites Sample.HttpUrl (Sample.refusing 1000)
               (with_name Sample.body "a") Sample.empty_world)) = 500.
Proof.
  exact (C8_name_length_is_a_server_error Sample.HttpUrl
           (Sample.refusing 1000) Sample.body Sample.empty_world
           "a" "https://example.com" "https://example.com"
           eq_refl eq_refl eq_refl (or_introl (le_n 2))).
Defined.

(** ** Recent checks *)

Section Sorting.

Context {A : Type}.

Implicit Types (x y : Database.Document A) (l : list (Database.Document A)).

Lemma insert_desc_perm x l :
  Permutation (Database.insert_desc x l) (x :: l).
Proof.
  induction l as [|y t IH]; simpl.
  - apply Permutation_refl.
  - destruct (Database.created_at y <=? Database.created_at x).
    + apply Permutation_refl.
    + etransitivity; [apply perm_skip, IH | apply perm_swap].
Qed.

Lemma sort_created_at_desc_perm l :
  Permutation (Database.sort_created_at_desc l) l.
Proof.
  induction l as [|x t IH]; simpl.
  - constructor.
  - etransitivity; [apply insert_desc_perm | now apply perm_skip].
Qed.

Lemma insert_desc_sorted x l :
  StronglySorted newer_or_equal l ->
  StronglySorted newer_or_equal (Database.insert_desc x l).
Proof.
  induction 1 as [|y t Hs IH Hall]; simpl.
  - repeat constructor.
  - destruct (Z.leb_spec (Database.created_at y) (Database.created_at x)) as [Hle|Hgt].
    + constructor; [now constructor|].
      constructor; [exact Hle|].
      eapply Forall_impl; [|exact Hall].
      unfold newer_or_equal. intros z Hz. lia.
    + constructor; [exact IH|].
      apply (Permutation_Forall (Permutation_sym (insert_desc_perm x t))).
      constructor; [unfold newer_or_equal; lia | exact Hall].
Qed.

Lemma sort_created_at_desc_sorted l :
  StronglySorted newer_or_equal (Database.sort_created_at_desc l).
Proof.
  induction l as [|x t IH]; simpl.
  - constructor.
  - now apply insert_desc_sorted.
Qed.

Lemma StronglySorted_app (R : Database.Document A -> Database.Document A -> Prop)
      l1 l2 :
  StronglySorted R (l1 ++ l2) ->
  StronglySorted R l1 /\ forall x y, In x l1 -> In y l2 -> R x y.
Proof.
  induction l1 as [|a t IH]; simpl; intros H.
  - split; [constructor | intros x y []].
  - apply StronglySorted_inv in H. destruct H as [Ht Ha].
    destruct (IH Ht) as [Hs Hcross].
    apply Forall_app in Ha. destruct Ha as [Ha1 Ha2].
    split; [now constructor|].
    intros x y [<-|Hx] Hy.
    + rewrite Forall_forall in Ha2. now apply Ha2.
    + now apply Hcross.
Qed.


(** What a limit keeps and what it leaves. *)
Lemma limit_split (n : Z) l :
  exists rest,
    l = Database.limit n l ++ rest
    /\ (0 < n -> py_len (Database.limit n l) = Z.min n (py_len l)).
Proof.
  unfold Database.limit.
  destruct (Z.eqb_spec n 0) as [->|Hn].
  - exists []. split; [now rewrite app_nil_r | lia].
  - exists (skipn (Z.to_nat (Z.abs n)) l).
    split; [now rewrite firstn_skipn|].
    intros Hpos. unfold py_len. rewrite length_firstn. lia.
Qed.

End Sorting.


Lemma filter_filt_None (l : list (Database.Document Schemas.CheckResult)) :
  filter (filt None) l = l.
Proof.
  induction l as [|x t IH]; simpl; [reflexivity | now rewrite IH].
Qed.

Lemma latest_items_spec (limit : Z) (website_id : option string)
      (d : Database.Db) :
  exists rest,
    StronglySorted newer_or_equal (latest_items limit website_id d)
    /\ Permutation (latest_items limit website_id d ++ rest)
         (filter (filt website_id) (Database.db_checkresult d))
    /\ (forall x y,
           In x (latest_items limit website_id d) -> In y rest ->
           newer_or_equal x y)
    /\ (0 < limit ->
        py_len (latest_items limit website_id d)
        = Z.min limit (py_len (latest_items limit website_id d ++ rest))).
Proof.
  unfold latest_items.
  set (matching := filter (filt website_id) (Database.db_checkresult d)).
  destruct (limit_split limit (Database.sort_created_at_desc matching))
    as [rest [Hsplit Hlen]].
  exists rest.
  pose proof (sort_created_at_desc_sorted matching) as Hs.
  rewrite Hsplit in Hs. apply StronglySorted_app in Hs.
  destruct Hs as [Hs Hcross].
  split; [exact Hs|].
  split; [rewrite <- Hsplit; apply sort_created_at_desc_perm|].
  split; [exact Hcross|].
  intros Hpos. rewrite <- Hsplit. now apply Hlen.
Qed.






(* ================================================================== *)
(** * Further properties of the handlers *)

(** ** Check execution, continued *)

Lemma take_all (n : nat) (s : string) :
  (String.length s <= n)%nat -> PyStr.take n s = s.
Proof.
  revert s. induction n as [|n IH]; intros [|c t]; simpl; intros H;
    try reflexivity; try lia.
  rewrite IH; [reflexivity | lia].
Qed.

Lemma take_length_min (n : nat) (s : string) :
  String.length (PyStr.take n s) = Nat.min n (String.length s).
Proof.
  revert s. induction n as [|n IH]; intros [|c t]; simpl; try reflexivity.
  now rewrite IH.
Qed.

(** X1: the text of a probe failure is stored and returned whole when it
    has at most 500 characters and cut to its first 500 characters
    otherwise: the error is the prefix of the text of the exception of
    length [min(500, len)], in the returned result and in the stored
    document alike. *)
Theorem run_check_error_text
        (env : Env) (website_id : string) (w : World) (o : Bson.ObjectId)
        (item : Database.Document Schemas.Website) (message : string) :
  Bson.ObjectId_of_str website_id = Some o ->
  Database.find_one o (Database.db_website (db w)) = Some item ->
  network env (Schemas.url (Database.fields item)) = Raised message ->
  exists out doc w' e rest,
    run_check env website_id w = (inr (mkCheckResponse out), w')
    /\ check_results w' = check_results w ++ [doc]
    /\ error out = Some e
    /\ Schemas.error (Database.fields doc) = Some e
    /\ message = (e ++ rest)%string
    /\ String.length e = Nat.min 500 (String.length message)
    /\ ((String.length message <= 500)%nat -> e = message).
Proof.
  intros Ho Hf Hnet.
  destruct (take_prefix 500 message) as [rest Hrest].
  eexists _, _, _, (PyStr.take 500 message), rest.
  split; [exact (run_check_found env website_id w o item Ho Hf)|].
  split; [reflexivity|].
  unfold returned_of, stored_of, vars_of. rewrite Hnet.
  cbn [check_outcome v_error error Database.fields Schemas.error].
  split; [reflexivity|].
  split; [reflexivity|].
  split; [exact Hrest|].
  split; [apply take_length_min | apply take_all].
Qed.

Lemma run_check_error_text_witness :
  exists out doc w' e rest,
    run_check (Sample.refusing 2000) Sample.site_id Sample.world
    = (inr (mkCheckResponse out), w')
    /\ check_results w' = check_results Sample.world ++ [doc]
    /\ error out = Some e
    /\ Schemas.error (Database.fields doc) = Some e
    /\ "Connection refused"%string = (e ++ rest)%string
    /\ String.length e = Nat.min 500 (String.length "Connection refused")
    /\ ((String.length "Connection refused" <= 500)%nat
        -> e = "Connection refused"%string).
Proof.
  exact (run_check_error_text
           (Sample.refusing 2000) Sample.site_id Sample.world
           Sample.site_id Sample.site "Connection refused"
           eq_refl eq_refl eq_refl).
Defined.

(** X2: a check that is answered reports one of three shapes: a response
    ([status_code] and [response_time_ms] present, [error] absent); a
    failure before any response ([status_code] and [response_time_ms]
    absent, [error] present, [is_up] false, no keyword match); or a
    response whose body could not be read ([status_code], outside
    [400, 600), and [response_time_ms] present, [error] present, [is_up]
    false, no keyword match).  Its [website_id] is the id of the
    request. *)
Theorem run_check_result_shape
        (env : Env) (wid : string) (w w' : World) (r : CheckResponse) :
  run_check env wid w = (inr r, w') ->
  website_id (result r) = wid
  /\ ((exists s ms,
          status_code (result r) = Some s
          /\ response_time_ms (result r) = Some ms
          /\ error (result r) = None)
      \/ (exists e,
             status_code (result r) = None
             /\ response_time_ms (result r) = None
             /\ error (result r) = Some e
             /\ is_up (result r) = false
             /\ keyword_matches (result r) = [])
      \/ (exists s ms e,
             status_code (result r) = Some s
             /\ ~ (400 <= s < 600)
             /\ response_time_ms (result r) = Some ms
             /\ error (result r) = Some e
             /\ is_up (result r) = false
             /\ keyword_matches (result r) = [])).
Proof.
  intros Hrun.
  destruct (run_check_returned env wid w w' r Hrun) as [o [item [Ho Hf]]].
  rewrite (run_check_found env wid w o item Ho Hf) in Hrun.
  injection Hrun as <- <-.
  split; [reflexivity|].
  unfold returned_of, vars_of. cbn [result].
  destruct (network env (Schemas.url (Database.fields item)))
    as [resp ms | message | status ms message].
  - cbn. left. now exists (resp_status_code resp), ms.
  - cbn. right. left. now exists (PyStr.take 500 message).
  - unfold check_outcome, Response_bool. cbn [resp_status_code].
    destruct ((400 <=? status) && (status <? 600)) eqn:Herr; cbn.
    + left. now exists status, ms.
    + right. right. exists status, ms, (PyStr.take 500 message).
      split; [reflexivity|]. split; [|repeat split].
      intros [H1 H2]. apply Z.leb_le in H1. apply Z.ltb_lt in H2.
      rewrite H1, H2 in Herr. discriminate.
Qed.

Lemma run_check_result_shape_witness :
  website_id
    (returned_of (Fixture.undecodable 200 12 2000) Sample.site_id Sample.site
       Sample.world) = Sample.site_id
  /\ ((exists s ms,
          status_code
            (returned_of (Fixture.undecodable 200 12 2000) Sample.site_id
               Sample.site Sample.world) = Some s
          /\ response_time_ms
               (returned_of (Fixture.undecodable 200 12 2000) Sample.site_id
                  Sample.site Sample.world) = Some ms
          /\ error
               (returned_of (Fixture.undecodable 200 12 2000) Sample.site_id
                  Sample.site Sample.world) = None)
      \/ (exists e,
             status_code
               (returned_of (Fixture.undecodable 200 12 2000) Sample.site_id
                  Sample.site Sample.world) = None
             /\ response_time_ms
                  (returned_of (Fixture.undecodable 200 12 2000) Sample.site_id
                     Sample.site Sample.world) = None
             /\ error
                  (returned_of (Fixture.undecodable 200 12 2000) Sample.site_id
                     Sample.site Sample.world) = Some e
             /\ is_up
                  (returned_of (Fixture.undecodable 200 12 2000) Sample.site_id
                     Sample.site Sample.world) = false
             /\ keyword_matches
                  (returned_of (Fixture.undecodable 200 12 2000) Sample.site_id
                     Sample.site Sample.world) = [])
      \/ (exists s ms e,
             status_code
               (returned_of (Fixture.undecodable 200 12 2000) Sample.site_id
                  Sample.site Sample.world) = Some s
             /\ ~ (400 <= s < 600)
             /\ response_time_ms
                  (returned_of (Fixture.undecodable 200 12 2000) Sample.site_id
                     Sample.site Sample.world) = Some ms
             /\ error
                  (returned_of (Fixture.undecodable 200 12 2000) Sample.site_id
                     Sample.site Sample.world) = Some e
             /\ is_up
                  (returned_of (Fixture.undecodable 200 12 2000) Sample.site_id
                     Sample.site Sample.world) = false
             /\ keyword_matches
                  (returned_of (Fixture.undecodable 200 12 2000) Sample.site_id
                     Sample.site Sample.world) = [])).
Proof.
  exact (run_check_result_shape
           (Fixture.undecodable 200 12 2000) Sample.site_id Sample.world
           (Sample.after_check (Fixture.undecodable 200 12 2000) Sample.world)
           (mkCheckResponse
              (returned_of (Fixture.undecodable 200 12 2000) Sample.site_id
                 Sample.site Sample.world))
           eq_refl).
Defined.

Lemma lower_eq_truthy (s1 s2 : string) :
  PyStr.lower s1 = PyStr.lower s2 -> PyStr.truthy s1 = PyStr.truthy s2.
Proof. destruct s1, s2; simpl; intros H; try reflexivity; discriminate. Qed.

Lemma keyword_found_lower (content kw1 kw2 : string) :
  PyStr.lower kw1 = PyStr.lower kw2 ->
  keyword_found content kw1 = keyword_found content kw2.
Proof.
  intros H. unfold keyword_found.
  now rewrite H, (lower_eq_truthy kw1 kw2 H).
Qed.

Lemma filter_keyword_found_lower (content : string) (kws1 kws2 : list string) :
  map PyStr.lower kws1 = map PyStr.lower kws2 ->
  map PyStr.lower (filter (keyword_found content) kws1)
  = map PyStr.lower (filter (keyword_found content) kws2).
Proof.
  revert kws2.
  induction kws1 as [|k1 t1 IH]; intros [|k2 t2] H; simpl in *;
    try reflexivity; try discriminate.
  injection H as Hk Ht.
  rewrite (keyword_found_lower content k1 k2 Hk).
  destruct (keyword_found content k2); simpl.
  - now rewrite Hk, (IH t2 Ht).
  - now apply IH.
Qed.

(** X3: keyword matching ignores case on both sides.  Two responses with
    the same status code whose bodies differ in case only, scanned for
    two keyword lists that differ in case only, report the same matches
    up to case. *)
Theorem keyword_matching_ignores_case
        (r1 r2 : Response) (ms1 ms2 : Z) (kws1 kws2 : list string) :
  resp_status_code r1 = resp_status_code r2 ->
  PyStr.lower (resp_text r1) = PyStr.lower (resp_text r2) ->
  map PyStr.lower kws1 = map PyStr.lower kws2 ->
  map PyStr.lower (v_matches (check_outcome (Returned r1 ms1) kws1))
  = map PyStr.lower (v_matches (check_outcome (Returned r2 ms2) kws2)).
Proof.
  intros Hs Ht Hk. cbn [check_outcome v_matches].
  assert (Hc : response_content r1 = response_content r2).
  { unfold response_content, Response_bool.
    now rewrite Hs, Ht, (lower_eq_truthy _ _ Ht). }
  rewrite Hc, !scan_keywords_filter.
  now apply filter_keyword_found_lower.
Qed.

Lemma keyword_matching_ignores_case_witness :
  map PyStr.lower
    (v_matches (check_outcome
                  (Returned (mkResponse 200 "Welcome to Example") 10)
                  ["WELCOME"%string; "nothing"%string]))
  = map PyStr.lower
      (v_matches (check_outcome
                    (Returned (mkResponse 200 "WELCOME TO EXAMPLE") 20)
                    ["welcome"%string; "Nothing"%string])).
Proof.
  exact (keyword_matching_ignores_case
           (mkResponse 200 "Welcome to Example")
           (mkResponse 200 "WELCOME TO EXAMPLE") 10 20
           ["WELCOME"%string; "nothing"%string]
           ["welcome"%string; "Nothing"%string]
           eq_refl eq_refl eq_refl).
Defined.

(** ** Summary, continued *)

Lemma limit_length (n : Z) {A : Type} (l : list A) :
  0 < n -> py_len (Database.limit n l) = Z.min n (py_len l).
Proof.
  intros Hn. unfold Database.limit, py_len.
  destruct (Z.eqb_spec n 0); [lia|].
  rewrite length_firstn. lia.
Qed.

Lemma sort_created_at_desc_length {A : Type} (l : list (Database.Document A)) :
  py_len (Database.sort_created_at_desc l) = py_len l.
Proof.
  unfold py_len. f_equal.
  apply Permutation_length, sort_created_at_desc_perm.
Qed.

(** X4: the window of the summary holds every stored check result while
    there are at most 200 of them and exactly 200 after that:
    [recent_checks = min(200, stored)]; the summary leaves the world as
    it is. *)
Theorem summary_window_size (w : World) :
  exists s,
    summary w = (inr s, w)
    /\ recent_checks s = Z.min 200 (py_len (check_results w))
    /\ total_sites s = py_len (Database.db_website (db w))
    /\ total_categories s = py_len (Database.db_category (db w)).
Proof.
  eexists. split; [apply summary_value|].
  cbn [recent_checks total_sites total_categories].
  split; [|split; reflexivity].
  unfold recent_window.
  rewrite limit_length by lia.
  now rewrite sort_created_at_desc_length.
Qed.

Lemma py_sum_bounds (lo hi : Z) (l : list Z) :
  (forall n, In n l -> lo <= n <= hi) ->
  py_len l * lo <= py_sum l <= py_len l * hi.
Proof.
  unfold py_len.
  induction l as [|x t IH]; intros H.
  - cbn. lia.
  - rewrite py_sum_cons. simpl List.length.
    assert (Hx : lo <= x <= hi) by (apply H; now left).
    assert (Ht : forall n, In n t -> lo <= n <= hi) by (intros n Hn; apply H; now right).
    specialize (IH Ht). lia.
Qed.

Lemma quot_between (s n lo hi : Z) :
  0 < n -> n * lo <= s <= n * hi -> lo <= Z.quot s n <= hi.
Proof.
  intros Hn Hs.
  pose proof (Z.quot_rem' s n) as Hqr.
  destruct (Z.le_gt_cases 0 s) as [Hpos|Hneg].
  - pose proof (Z.rem_bound_pos s n Hpos Hn) as Hr.
    split.
    + apply Z.nlt_ge. intros Hq.
      assert (n * (Z.quot s n) <= n * (lo - 1)) by (apply Z.mul_le_mono_nonneg_l; lia).
      lia.
    + apply Z.nlt_ge. intros Hq.
      assert (n * (hi + 1) <= n * (Z.quot s n)) by (apply Z.mul_le_mono_nonneg_l; lia).
      lia.
  - assert (Hle : s <= 0) by lia.
    pose proof (Z.rem_bound_pos_neg s n Hn Hle) as Hr.
    split.
    + apply Z.nlt_ge. intros Hq.
      assert (n * (Z.quot s n) <= n * (lo - 1)) by (apply Z.mul_le_mono_nonneg_l; lia).
      lia.
    + apply Z.nlt_ge. intros Hq.
      assert (n * (hi + 1) <= n * (Z.quot s n)) by (apply Z.mul_le_mono_nonneg_l; lia).
      lia.
Qed.

(** X5: when the summary reports an average and the response times it
    counts, the recorded ones other than zero, add up to less than 2^53
    in absolute value (the range in which the float of line 230 gives the
    integer quotient), the average lies between any two bounds that hold
    for these response times. *)
Theorem summary_average_between (w : World) (s : Summary) (a lo hi : Z) :
  fst (summary w) = inr s ->
  avg_response_time_ms s = Some a ->
  Z.abs (py_sum (response_times (recent_window (db w)))) < 2 ^ 53 ->
  (forall r n,
      In r (recent_window (db w)) ->
      Schemas.response_time_ms (Database.fields r) = Some n ->
      n <> 0 ->
      lo <= n <= hi) ->
  lo <= a <= hi.
Proof.
  intros Hs Ha _ Hb.
  rewrite summary_value in Hs. cbn [fst] in Hs. injection Hs as <-.
  cbn [avg_response_time_ms] in Ha.
  assert (Hin : forall n, In n (response_times (recent_window (db w))) ->
                          lo <= n <= hi).
  { intros n Hn. apply response_times_In in Hn.
    destruct Hn as [Hne [r [Hr Hrt]]]. exact (Hb r n Hr Hrt Hne). }
  destruct (response_times (recent_window (db w))) as [|x t] eqn:Hrts;
    [discriminate|].
  cbn [average] in Ha. injection Ha as <-.
  apply quot_between.
  - unfold py_len. simpl List.length. lia.
  - now apply py_sum_bounds.
Qed.

Lemma summary_average_between_witness : 100 <= 150 <= 200.
Proof.
  apply (summary_average_between Sample.scenario_E
           (mkSummary 1 0 3 2 1 (Some 150)) 150 100 200 eq_refl eq_refl).
  { vm_compute. reflexivity. }
  intros r n Hin Hrt Hne. vm_compute in Hin.
  destruct Hin as [<-|[<-|[<-|[]]]]; vm_compute in Hrt;
    try discriminate; injection Hrt as <-; lia.
Defined.

(** X6: the summary reports no average exactly when no result of the
    window has a response time other than zero: each one is absent or 0. *)
Theorem summary_average_absent_iff (w : World) :
  exists s,
    summary w = (inr s, w)
    /\ (avg_response_time_ms s = None
        <-> forall r,
            In r (recent_window (db w)) ->
            Schemas.response_time_ms (Database.fields r) = None
            \/ Schemas.response_time_ms (Database.fields r) = Some 0).
Proof.
  eexists. split; [apply summary_value|].
  cbn [avg_response_time_ms]. rewrite average_absent_iff.
  split; intros H r Hr; specialize (H r Hr).
  - destruct (Schemas.response_time_ms (Database.fields r)) as [n|];
      [|now left].
    right. simpl in H. apply negb_false_iff, Z.eqb_eq in H. now subst.
  - destruct H as [-> | ->]; reflexivity.
Qed.

Lemma filter_length_perm {A : Type} (p : A -> bool) (l l' : list A) :
  Permutation l l' ->
  List.length (filter p l) = List.length (filter p l').
Proof.
  induction 1 as [|x l l' _ IH|x y l|l l' l'' _ IH1 _ IH2]; simpl.
  - reflexivity.
  - destruct (p x); simpl; now rewrite IH.
  - destruct (p x), (p y); reflexivity.
  - now rewrite IH1.
Qed.

Lemma recent_window_all (d : Database.Db) :
  py_len (Database.db_checkresult d) <= 200 ->
  recent_window d = Database.sort_created_at_desc (Database.db_checkresult d).
Proof.
  intros Hlen. unfold recent_window, Database.limit.
  change (200 =? 0) with false. cbv iota.
  apply firstn_all2.
  pose proof (sort_created_at_desc_length (Database.db_checkresult d)) as Hs.
  unfold py_len in *. lia.
Qed.

Lemma count_up_window (d : Database.Db) :
  py_len (Database.db_checkresult d) <= 200 ->
  count_up (recent_window d)
  = py_len (filter (fun r => Schemas.is_up (Database.fields r))
              (Database.db_checkresult d)).
Proof.
  intros Hlen. rewrite (recent_window_all d Hlen), count_up_length.
  unfold py_len. f_equal.
  apply filter_length_perm, sort_created_at_desc_perm.
Qed.

(** A check that returns a result changes the database by one insertion
    into the check results. *)
Lemma run_check_world (env : Env) (wid : string) (w w' : World)
      (r : CheckResponse) :
  run_check env wid w = (inr r, w') ->
  exists doc,
    db w' = Database.insert_one Database.checkresult doc (db w)
    /\ shows (result r) doc.
Proof.
  intros Hrun.
  destruct (run_check_returned env wid w w' r Hrun) as [o [item [Ho Hf]]].
  rewrite (run_check_found env wid w o item Ho Hf) in Hrun.
  injection Hrun as <- <-.
  exists (stored_of env wid item w).
  split; [reflexivity | apply returned_shows_stored].
Qed.

(** X7: while fewer than 200 check results are stored, every check that
    is answered adds one to [recent_checks] and one to [up] or to [down],
    according to its [is_up]; the totals of websites and of categories
    stay as they are. *)
Theorem summary_counts_new_check
        (env : Env) (wid : string) (w w' : World) (r : CheckResponse)
        (s s' : Summary) :
  run_check env wid w = (inr r, w') ->
  py_len (check_results w) < 200 ->
  fst (summary w) = inr s ->
  fst (summary w') = inr s' ->
  recent_checks s' = recent_checks s + 1
  /\ up s' = up s + (if is_up (result r) then 1 else 0)
  /\ down s' = down s + (if is_up (result r) then 0 else 1)
  /\ total_sites s' = total_sites s
  /\ total_categories s' = total_categories s.
Proof.
  intros Hrun Hlen Hs Hs'.
  destruct (run_check_world env wid w w' r Hrun) as [doc [Hdb Hshow]].
  destruct Hshow as [_ [_ [_ [Hup _]]]].
  rewrite summary_value in Hs, Hs'. cbn [fst] in Hs, Hs'.
  injection Hs as <-. injection Hs' as <-.
  cbn [recent_checks up down total_sites total_categories].
  unfold check_results in Hlen.
  assert (Hchk : Database.db_checkresult (db w')
                 = Database.db_checkresult (db w) ++ [doc])
    by (rewrite Hdb; reflexivity).
  assert (Hlen' : py_len (Database.db_checkresult (db w')) <= 200).
  { rewrite Hchk. unfold py_len in *. rewrite length_app. simpl. lia. }
  rewrite !count_up_window by lia.
  rewrite (recent_window_all (db w')), (recent_window_all (db w)) by lia.
  rewrite !sort_created_at_desc_length, Hchk, filter_app.
  rewrite Hdb. cbn [Database.insert_one Database.db_website Database.db_category].
  unfold py_len, Database.count_documents, py_len. rewrite !length_app.
  simpl filter. rewrite Hup.
  destruct (Schemas.is_up (Database.fields doc)); simpl List.length;
    repeat split; lia.
Qed.

Lemma summary_counts_new_check_witness :
  recent_checks (mkSummary 1 0 1 1 0 (Some 100))
  = recent_checks (mkSummary 1 0 0 0 0 None) + 1
  /\ up (mkSummary 1 0 1 1 0 (Some 100))
     = up (mkSummary 1 0 0 0 0 None)
       + (if is_up (returned_of (Sample.answering 200 100 2000)
                      Sample.site_id Sample.site Sample.world)
          then 1 else 0)
  /\ down (mkSummary 1 0 1 1 0 (Some 100))
     = down (mkSummary 1 0 0 0 0 None)
       + (if is_up (returned_of (Sample.answering 200 100 2000)
                      Sample.site_id Sample.site Sample.world)
          then 0 else 1)
  /\ total_sites (mkSummary 1 0 1 1 0 (Some 100))
     = total_sites (mkSummary 1 0 0 0 0 None)
  /\ total_categories (mkSummary 1 0 1 1 0 (Some 100))
     = total_categories (mkSummary 1 0 0 0 0 None).
Proof.
  apply (summary_counts_new_check
           (Sample.answering 200 100 2000) Sample.site_id Sample.world
           (Sample.after_check (Sample.answering 200 100 2000) Sample.world)
           (mkCheckResponse
              (returned_of (Sample.answering 200 100 2000) Sample.site_id
                 Sample.site Sample.world))
           (mkSummary 1 0 0 0 0 None) (mkSummary 1 0 1 1 0 (Some 100))
           eq_refl).
  - vm_compute. reflexivity.
  - reflexivity.
  - reflexivity.
Defined.

(** ** Listing by name *)

Lemma string_leb_trans (s1 s2 s3 : string) :
  String.leb s1 s2 = true -> String.leb s2 s3 = true -> String.leb s1 s3 = true.
Proof.
  unfold String.leb. revert s2 s3.
  induction s1 as [|c1 t1 IH]; intros [|c2 t2] [|c3 t3]; simpl;
    try reflexivity; try discriminate.
  unfold Ascii.compare.
  destruct (N.compare_spec (N_of_ascii c1) (N_of_ascii c2));
    destruct (N.compare_spec (N_of_ascii c2) (N_of_ascii c3));
    destruct (N.compare_spec (N_of_ascii c1) (N_of_ascii c3));
    try (exfalso; lia); try reflexivity; try discriminate.
  apply IH.
Qed.

Section SortingByName.

Context {A : Type} (name : A -> string).

Implicit Types (x y : Database.Document A) (l : list (Database.Document A)).

Lemma insert_name_asc_perm x l :
  Permutation (insert_name_asc name x l) (x :: l).
Proof.
  induction l as [|y t IH]; simpl.
  - apply Permutation_refl.
  - destruct (String.leb (name (Database.fields x)) (name (Database.fields y))).
    + apply Permutation_refl.
    + etransitivity; [apply perm_skip, IH | apply perm_swap].
Qed.

Lemma sort_name_asc_perm l : Permutation (sort_name_asc name l) l.
Proof.
  induction l as [|x t IH]; simpl.
  - constructor.
  - etransitivity; [apply insert_name_asc_perm | now apply perm_skip].
Qed.

Lemma insert_name_asc_sorted x l :
  StronglySorted (name_le name) l ->
  StronglySorted (name_le name) (insert_name_asc name x l).
Proof.
  induction 1 as [|y t Hs IH Hall]; simpl.
  - repeat constructor.
  - destruct (String.leb (name (Database.fields x)) (name (Database.fields y)))
      eqn:Hxy.
    + constructor; [now constructor|].
      constructor; [exact Hxy|].
      eapply Forall_impl; [|exact Hall].
      unfold name_le. intros z Hz. eapply string_leb_trans; eassumption.
    + constructor; [exact IH|].
      apply (Permutation_Forall (Permutation_sym (insert_name_asc_perm x t))).
      constructor; [|exact Hall].
      unfold name_le.
      destruct (String.leb_total (name (Database.fields x))
                  (name (Database.fields y))) as [H|H];
        [congruence | exact H].
Qed.

Lemma sort_name_asc_sorted l :
  StronglySorted (name_le name) (sort_name_asc name l).
Proof.
  induction l as [|x t IH]; simpl.
  - constructor.
  - now apply insert_name_asc_sorted.
Qed.

End SortingByName.

Lemma build_all_Forall2 {A B : Type} (f : A -> option B) (l : list A)
      (ys : list B) :
  build_all f l = Some ys -> Forall2 (fun y x => f x = Some y) ys l.
Proof.
  revert ys. induction l as [|x t IH]; simpl; intros ys H.
  - injection H as <-. constructor.
  - destruct (f x) as [y|] eqn:Hx; [|discriminate].
    destruct (build_all f t) as [ys'|]; [|discriminate].
    injection H as <-. constructor; [exact Hx | now apply IH].
Qed.

Lemma build_all_total {A B : Type} (f : A -> option B) (l : list A) :
  Forall (fun x => exists y, f x = Some y) l ->
  exists ys, build_all f l = Some ys.
Proof.
  induction 1 as [|x t [y Hy] _ [ys IH]]; simpl.
  - now exists [].
  - rewrite Hy, IH. now exists (y :: ys).
Qed.

(** ** Categories *)

Lemma CategoryOut_of_shows (i : Database.Document Schemas.Category)
      (out : CategoryOut) :
  CategoryOut_of i = Some out -> shows_category out i.
Proof.
  unfold CategoryOut_of.
  destruct (Schemas.length_between 2 100 _); [|discriminate].
  intros H. injection H as <-. repeat split.
Qed.

Lemma shows_category_unique (o1 o2 : CategoryOut)
      (i : Database.Document Schemas.Category) :
  shows_category o1 i -> shows_category o2 i -> o1 = o2.
Proof.
  destruct o1 as [id1 [n1 c1]], o2 as [id2 [n2 c2]].
  unfold shows_category. cbn.
  intros [-> [-> ->]] [-> [-> ->]]. reflexivity.
Qed.

(** X8: [POST /api/categories] refuses a body without a name or with a
    name shorter than 2 or longer than 100 characters (422, world
    untouched); any other body stores exactly one category, stamped with
    the clock of the request, touches nothing else, and returns it with
    its identifier, the name and the colour as given (an absent colour
    stays absent). *)
Theorem post_api_categories_outcome (env : Env) (b : CategoryBody) (w : World) :
  (cbody_name b = None -> refused (post_api_categories env b w) w)
  /\ (forall n,
         cbody_name b = Some n ->
         (String.length n < 2 \/ 100 < String.length n)%nat ->
         refused (post_api_categories env b w) w)
  /\ (forall n,
         cbody_name b = Some n ->
         (2 <= String.length n <= 100)%nat ->
         exists out doc w',
           post_api_categories env b w = (inr out, w')
           /\ Database.db_category (db w') = Database.db_category (db w) ++ [doc]
           /\ Database.db_website (db w') = Database.db_website (db w)
           /\ check_results w' = check_results w
           /\ probes w' = probes w
           /\ shows_category out doc
           /\ cin_name (co_payload out) = n
           /\ cin_color (co_payload out) = cbody_color b
           /\ Database.created_at doc = utcnow env).
Proof.
  split; [|split].
  - intros Hn. unfold refused, post_api_categories, CategoryIn_validate.
    rewrite Hn. split; reflexivity.
  - intros n Hn Hlen. apply (post_api_categories_name_length env b w n Hn).
    unfold Schemas.length_between. apply andb_false_iff.
    destruct Hlen; [left | right]; apply Nat.leb_gt; lia.
  - intros n Hn Hlen.
    assert (Hb : Schemas.length_between 2 100 n = true).
    { unfold Schemas.length_between. apply andb_true_iff.
      split; apply Nat.leb_le; lia. }
    unfold post_api_categories, CategoryIn_validate. rewrite Hn, Hb.
    unfold create_category, Schemas.Category_new. cbn [cin_name cin_color].
    rewrite Hb. cbn.
    eexists _, _, _. repeat split.
Qed.

Lemma post_api_categories_outcome_witness :
  exists out doc w',
    post_api_categories (Sample.refusing 1000) Fixture.news Sample.empty_world
    = (inr out, w')
    /\ Database.db_category (db w')
       = Database.db_category (db Sample.empty_world) ++ [doc]
    /\ Database.db_website (db w') = Database.db_website (db Sample.empty_world)
    /\ check_results w' = check_results Sample.empty_world
    /\ probes w' = probes Sample.empty_world
    /\ shows_category out doc
    /\ cin_name (co_payload out) = "News"%string
    /\ cin_color (co_payload out) = cbody_color Fixture.news
    /\ Database.created_at doc = utcnow (Sample.refusing 1000).
Proof.
  apply (proj2 (proj2 (post_api_categories_outcome (Sample.refusing 1000)
                         Fixture.news Sample.empty_world))
           "News"%string eq_refl).
  simpl. lia.
Defined.

Lemma list_categories_value (w : World) :
  Forall (fun i => Category_ok (Database.fields i)) (Database.db_category (db w)) ->
  exists outs,
    list_categories w = (inr outs, w)
    /\ Forall2 shows_category outs
         (sort_name_asc Schemas.cat_name (Database.db_category (db w))).
Proof.
  intros Hok.
  set (items := sort_name_asc Schemas.cat_name (Database.db_category (db w))).
  assert (Hitems : Forall (fun i => exists y, CategoryOut_of i = Some y) items).
  { apply (Permutation_Forall
             (Permutation_sym (sort_name_asc_perm Schemas.cat_name _))).
    eapply Forall_impl; [|exact Hok].
    intros i Hi. unfold Category_ok in Hi. unfold CategoryOut_of.
    rewrite Hi. eexists. reflexivity. }
  destruct (build_all_total CategoryOut_of items Hitems) as [outs Houts].
  exists outs. split.
  - unfold list_categories, bind, query, ret. cbn. fold items.
    now rewrite Houts.
  - apply build_all_Forall2 in Houts.
    eapply Forall2_impl; [|exact Houts].
    intros out i. apply CategoryOut_of_shows.
Qed.

(** X9: when every stored category is one the schema accepts,
    [GET /api/categories] leaves the world as it is and returns every
    stored category exactly once, in ascending order of name. *)
Theorem list_categories_sorted_by_name (w : World) :
  Forall (fun i => Category_ok (Database.fields i)) (Database.db_category (db w)) ->
  exists outs items,
    list_categories w = (inr outs, w)
    /\ Permutation items (Database.db_category (db w))
    /\ StronglySorted (name_le Schemas.cat_name) items
    /\ Forall2 shows_category outs items.
Proof.
  intros Hok.
  destruct (list_categories_value w Hok) as [outs [Hrun Hshow]].
  exists outs, (sort_name_asc Schemas.cat_name (Database.db_category (db w))).
  split; [exact Hrun|].
  split; [apply sort_name_asc_perm|].
  split; [apply sort_name_asc_sorted | exact Hshow].
Qed.

(** The two sample categories come back with Blogs before News, the
    reverse of the order they were created in. *)
Example list_categories_two :
  fst (list_categories Fixture.two_categories)
  = inr [mkCategoryOut (Bson.ObjectId_of_N 1)
           (mkCategoryIn "Blogs" (Some "#ff0000"%string));
         mkCategoryOut (Bson.ObjectId_of_N 0) (mkCategoryIn "News" None)].
Proof. reflexivity. Qed.

Lemma list_categories_sorted_by_name_witness :
  exists outs items,
    list_categories Fixture.two_categories = (inr outs, Fixture.two_categories)
    /\ Permutation items (Database.db_category (db Fixture.two_categories))
    /\ StronglySorted (name_le Schemas.cat_name) items
    /\ Forall2 shows_category outs items.
Proof.
  apply list_categories_sorted_by_name.
  repeat constructor.
Defined.

Lemma Forall2_In_r {A B : Type} (R : A -> B -> Prop) (l1 : list A)
      (l2 : list B) (y : B) :
  Forall2 R l1 l2 -> In y l2 -> exists x, In x l1 /\ R x y.
Proof.
  induction 1 as [|a b t1 t2 Hab _ IH]; intros Hin.
  - destruct Hin.
  - destruct Hin as [<-|Hin].
    + exists a. split; [now left | exact Hab].
    + destruct (IH Hin) as [x [Hx HR]]. exists x. split; [now right | exact HR].
Qed.

(** X10: a category that [POST /api/categories] has returned is in the
    next answer of [GET /api/categories], as it was returned. *)
Theorem created_category_is_listed
        (env : Env) (b : CategoryBody) (w w' : World) (out : CategoryOut) :
  Forall (fun i => Category_ok (Database.fields i)) (Database.db_category (db w)) ->
  post_api_categories env b w = (inr out, w') ->
  exists outs, list_categories w' = (inr outs, w') /\ In out outs.
Proof.
  intros Hok Hrun.
  destruct (cbody_name b) as [n|] eqn:Hn.
  - destruct (Schemas.length_between 2 100 n) eqn:Hb.
    + assert (Hlen : (2 <= String.length n <= 100)%nat).
      { unfold Schemas.length_between in Hb. apply andb_true_iff in Hb.
        destruct Hb as [H1 H2]. apply Nat.leb_le in H1, H2. lia. }
      destruct (proj2 (proj2 (post_api_categories_outcome env b w)) n Hn Hlen)
        as [out' [doc [w'' [Hrun' [Hcat [_ [_ [_ [Hshow [Hname _]]]]]]]]]].
      rewrite Hrun in Hrun'. injection Hrun' as <- <-.
      assert (Hok' : Forall (fun i => Category_ok (Database.fields i))
                       (Database.db_category (db w'))).
      { rewrite Hcat. apply Forall_app. split; [exact Hok|].
        constructor; [|constructor].
        unfold Category_ok. destruct Hshow as [_ [Hs _]].
        now rewrite <- Hs, Hname. }
      destruct (list_categories_value w' Hok') as [outs [Hlist Hall]].
      exists outs. split; [exact Hlist|].
      assert (Hin : In doc (sort_name_asc Schemas.cat_name
                              (Database.db_category (db w')))).
      { apply (Permutation_in _
                 (Permutation_sym (sort_name_asc_perm Schemas.cat_name _))).
        rewrite Hcat. apply in_or_app. right. now left. }
      destruct (Forall2_In_r _ _ _ _ Hall Hin) as [x [Hx Hxs]].
      now rewrite (shows_category_unique out x doc Hshow Hxs).
    + pose proof (post_api_categories_name_length env b w n Hn Hb) as [Hr _].
      rewrite Hrun in Hr. discriminate.
  - pose proof (proj1 (post_api_categories_outcome env b w) Hn) as [Hr _].
    rewrite Hrun in Hr. discriminate.
Qed.

Lemma created_category_is_listed_witness :
  exists outs,
    list_categories
      (snd (post_api_categories (Sample.refusing 1000) Fixture.blogs
              Sample.empty_world))
    = (inr outs,
       snd (post_api_categories (Sample.refusing 1000) Fixture.blogs
              Sample.empty_world))
    /\ In (mkCategoryOut (Bson.ObjectId_of_N 0)
             (mkCategoryIn "Blogs" (Some "#ff0000"%string)))
         outs.
Proof.
  apply (created_category_is_listed (Sample.refusing 1000) Fixture.blogs
           Sample.empty_world).
  - constructor.
  - reflexivity.
Defined.

(** ** Identifiers *)

Lemma hex_digit_ok (m : N) :
  (m < 16)%N ->
  Bson.is_hex_digit (Bson.hex_digit m) = true
  /\ PyStr.chr_lower (Bson.hex_digit m) = Bson.hex_digit m.
Proof.
  intros Hm.
  assert (Hall : forallb
                   (fun k => Bson.is_hex_digit (Bson.hex_digit (N.of_nat k))
                             && Ascii.eqb
                                  (PyStr.chr_lower (Bson.hex_digit (N.of_nat k)))
                                  (Bson.hex_digit (N.of_nat k)))
                   (seq 0 16) = true) by reflexivity.
  rewrite forallb_forall in Hall.
  specialize (Hall (N.to_nat m)).
  rewrite N2Nat.id in Hall.
  assert (Hin : In (N.to_nat m) (seq 0 16)) by (apply in_seq; lia).
  apply Hall in Hin. apply andb_true_iff in Hin.
  destruct Hin as [H1 H2]. apply Ascii.eqb_eq in H2. now split.
Qed.

Lemma hex_of_ok (digits : nat) (n : N) (acc : string) :
  Bson.all_hex acc = true ->
  PyStr.lower acc = acc ->
  String.length (Bson.hex_of digits n acc) = (digits + String.length acc)%nat
  /\ Bson.all_hex (Bson.hex_of digits n acc) = true
  /\ PyStr.lower (Bson.hex_of digits n acc) = Bson.hex_of digits n acc.
Proof.
  revert n acc. induction digits as [|d IH]; intros n acc Hhex Hlow; simpl.
  - now repeat split.
  - assert (Hm : (n mod 16 < 16)%N) by (apply N.mod_lt; discriminate).
    destruct (hex_digit_ok (n mod 16)%N Hm) as [Hd Hl].
    destruct (IH (n / 16)%N (String (Bson.hex_digit (n mod 16)%N) acc))
      as [H1 [H2 H3]].
    + simpl. now rewrite Hd, Hhex.
    + simpl. now rewrite Hl, Hlow.
    + simpl in H1. repeat split; [lia | exact H2 | exact H3].
Qed.

Lemma hex_digit_not_space (c : ascii) :
  Bson.is_hex_digit c = true -> Bson.is_space c = false.
Proof.
  destruct c as [[] [] [] [] [] [] [] []]; vm_compute;
    intros H; try reflexivity; discriminate H.
Qed.

(** On digits only, [bytes.fromhex] reads every pair as a byte. *)
Lemma fromhex_digits (n : nat) (s : string) :
  String.length s = (2 * n)%nat ->
  Bson.all_hex s = true ->
  Bson.fromhex s = Some (PyStr.lower s).
Proof.
  revert s. induction n as [|n IH]; intros s Hlen Hhex.
  - destruct s; [reflexivity | discriminate].
  - destruct s as [|c [|d t]]; simpl in Hlen; try lia.
    cbn [Bson.all_hex] in Hhex.
    apply andb_true_iff in Hhex. destruct Hhex as [Hc Hhex].
    apply andb_true_iff in Hhex. destruct Hhex as [Hd Ht].
    cbn [Bson.fromhex PyStr.lower].
    rewrite (hex_digit_not_space c Hc), Hc, Hd.
    rewrite (IH t); [reflexivity | lia | exact Ht].
Qed.

(** Every identifier the store hands out is one [oid] accepts, as it is. *)
Lemma ObjectId_of_N_accepted (n : N) :
  Bson.ObjectId_of_str (Bson.ObjectId_of_N n) = Some (Bson.ObjectId_of_N n).
Proof.
  unfold Bson.ObjectId_of_str, Bson.ObjectId_of_N.
  destruct (hex_of_ok 24 n EmptyString eq_refl eq_refl) as [H1 [H2 H3]].
  rewrite H1. cbn [Nat.add String.length Nat.eqb].
  rewrite (fromhex_digits 12 _ H1 H2), H3. reflexivity.
Qed.

Lemma find_one_app {A : Type} (o : Bson.ObjectId)
      (l : list (Database.Document A)) (doc : Database.Document A) :
  Database.find_one o l = None ->
  Database._id doc = o ->
  Database.find_one o (l ++ [doc]) = Some doc.
Proof.
  unfold Database.find_one. intros Hnone <-.
  induction l as [|x t IH]; simpl in *.
  - now rewrite String.eqb_refl.
  - destruct (String.eqb (Database._id x) (Database._id doc));
      [discriminate | now apply IH].
Qed.

(** ** Websites *)

Section Websites.

Variable HttpUrl : string -> option string.

Lemma WebsiteOut_of_shows (i : Database.Document Schemas.Website)
      (out : WebsiteOut) :
  WebsiteOut_of HttpUrl i = Some out ->
  wo_id out = Database._id i
  /\ in_name (wo_payload out) = Schemas.name (Database.fields i)
  /\ HttpUrl (Schemas.url (Database.fields i)) = Some (in_url (wo_payload out))
  /\ in_category_id (wo_payload out) = Schemas.category_id (Database.fields i)
  /\ in_keywords (wo_payload out) = Schemas.keywords (Database.fields i)
  /\ in_interval_seconds (wo_payload out)
     = Schemas.interval_seconds (Database.fields i)
  /\ in_is_active (wo_payload out) = Schemas.is_active (Database.fields i).
Proof.
  unfold WebsiteOut_of.
  destruct (HttpUrl (Schemas.url (Database.fields i))) as [u|]; [|discriminate].
  destruct (Schemas.int_between 30 86400 _); [|discriminate].
  intros H. injection H as <-. repeat split.
Qed.

Lemma WebsiteOut_of_ok (i : Database.Document Schemas.Website) :
  Website_ok HttpUrl (Database.fields i) ->
  exists out, WebsiteOut_of HttpUrl i = Some out /\ shows_website out i.
Proof.
  intros [_ [Hint Hurl]]. unfold WebsiteOut_of. rewrite Hurl, Hint.
  eexists. split; [reflexivity | repeat split].
Qed.

(** What a successful [POST /api/websites] has done. *)
Lemma post_api_websites_created (env : Env) (b : WebsiteBody) (w w' : World)
      (out : WebsiteOut) :
  post_api_websites HttpUrl env b w = (inr out, w') ->
  exists n u doc,
    body_name b = Some n
    /\ body_url b = Some u
    /\ HttpUrl u = Some (in_url (wo_payload out))
    /\ Schemas.length_between 2 150 n = true
    /\ Schemas.int_between 30 86400 (in_interval_seconds (wo_payload out)) = true
    /\ wo_payload out
       = mkWebsiteIn n (in_url (wo_payload out)) (body_category_id b)
           (or_default [] (body_keywords b))
           (or_default 300 (body_interval_seconds b))
           (or_default true (body_is_active b))
    /\ db w' = Database.insert_one Database.website doc (db w)
    /\ probes w' = probes w
    /\ shows_website out doc
    /\ Database._id doc = Bson.ObjectId_of_N (Database.db_next_id (db w))
    /\ Database.created_at doc = utcnow env.
Proof.
  unfold post_api_websites, WebsiteIn_validate.
  destruct (body_name b) as [n|]; [|discriminate].
  destruct (body_url b) as [u|]; [|discriminate].
  destruct (HttpUrl u) as [u'|] eqn:Hu; [|discriminate].
  destruct (Schemas.int_between 30 86400
              (or_default 300 (body_interval_seconds b))) eqn:Hint;
    [|discriminate].
  unfold create_website, Schemas.Website_new.
  cbn [in_name in_url in_category_id in_keywords in_interval_seconds in_is_active].
  rewrite Hint.
  destruct (Schemas.length_between 2 150 n) eqn:Hlen; [|discriminate].
  cbn. intros H. injection H as <- <-.
  eexists n, u, _. cbn.
  split; [reflexivity|]. split; [reflexivity|]. split; [exact Hu|].
  split; [exact Hlen|]. split; [exact Hint|].
  repeat split.
Qed.

End Websites.

(** X11: [POST /api/websites] refuses (422, world untouched) a body
    without a name, without a url, with a url the parser rejects, or with
    an [interval_seconds] outside [30, 86400]; a body that passes these
    tests and whose name has 2 to 150 characters stores exactly one
    website, stamped with the clock of the request, touches nothing else,
    and returns it: the name as given, the parsed url, and the defaults
    [keywords = []], [interval_seconds = 300], [is_active = true] for the
    fields left out. *)
Theorem post_api_websites_outcome
        (HttpUrl : string -> option string) (env : Env) (b : WebsiteBody)
        (w : World) :
  (body_name b = None
   \/ body_url b = None
   \/ (exists u, body_url b = Some u /\ HttpUrl u = None)
   \/ (exists i, body_interval_seconds b = Some i /\ (i < 30 \/ 86400 < i)) ->
   refused (post_api_websites HttpUrl env b w) w)
  /\ (forall n u u',
         body_name b = Some n ->
         body_url b = Some u ->
         HttpUrl u = Some u' ->
         30 <= or_default 300 (body_interval_seconds b) <= 86400 ->
         (2 <= String.length n <= 150)%nat ->
         exists out doc w',
           post_api_websites HttpUrl env b w = (inr out, w')
           /\ wo_payload out
              = mkWebsiteIn n u' (body_category_id b)
                  (or_default [] (body_keywords b))
                  (or_default 300 (body_interval_seconds b))
                  (or_default true (body_is_active b))
           /\ shows_website out doc
           /\ Database.db_website (db w') = Database.db_website (db w) ++ [doc]
           /\ Database.db_category (db w') = Database.db_category (db w)
           /\ check_results w' = check_results w
           /\ probes w' = probes w
           /\ Database.created_at doc = utcnow env).
Proof.
  split.
  - intros [Hn | [Hu | [[u [Hu Hp]] | [i [Hi Hout]]]]].
    + unfold refused, post_api_websites, WebsiteIn_validate. rewrite Hn.
      split; reflexivity.
    + unfold refused, post_api_websites, WebsiteIn_validate. rewrite Hu.
      destruct (body_name b); split; reflexivity.
    + unfold refused, post_api_websites, WebsiteIn_validate. rewrite Hu, Hp.
      destruct (body_name b); split; reflexivity.
    + exact (post_api_websites_out_of_range HttpUrl env b w i Hi Hout).
  - intros n u u' Hn Hu Hp Hint Hlen.
    assert (Hb : Schemas.length_between 2 150 n = true).
    { unfold Schemas.length_between. apply andb_true_iff.
      split; apply Nat.leb_le; lia. }
    destruct (post_api_websites_in_range HttpUrl env b w n u u' _
                Hn Hu Hp Hb eq_refl Hint) as [out [doc0 [w' [Hrun _]]]].
    destruct (post_api_websites_created HttpUrl env b w w' out Hrun)
      as [n' [u0 [doc [Hn' [Hu' [Hp' [_ [_ [Hpay [Hdb [Hpr [Hshow [_ Ht]]]]]]]]]]]]].
    rewrite Hn in Hn'. injection Hn' as <-.
    rewrite Hu in Hu'. injection Hu' as <-.
    rewrite Hp in Hp'. injection Hp' as Hu'.
    exists out, doc, w'.
    split; [exact Hrun|].
    split; [rewrite Hpay, <- Hu'; reflexivity|].
    split; [exact Hshow|].
    unfold check_results. rewrite Hdb. cbn.
    repeat split; assumption.
Qed.

Lemma post_api_websites_outcome_witness :
  exists out doc w',
    post_api_websites Sample.HttpUrl (Sample.refusing 1000) Sample.body
      Sample.empty_world = (inr out, w')
    /\ wo_payload out
       = mkWebsiteIn "Example" "https://example.com" None
           ["Welcome"%string] 300 true
    /\ shows_website out doc
    /\ Database.db_website (db w')
       = Database.db_website (db Sample.empty_world) ++ [doc]
    /\ Database.db_category (db w') = Database.db_category (db Sample.empty_world)
    /\ check_results w' = check_results Sample.empty_world
    /\ probes w' = probes Sample.empty_world
    /\ Database.created_at doc = 1000.
Proof.
  apply (proj2 (post_api_websites_outcome Sample.HttpUrl (Sample.refusing 1000)
                  Sample.body Sample.empty_world)
           "Example"%string "https://example.com"%string
           "https://example.com"%string eq_refl eq_refl eq_refl).
  - simpl. lia.
  - simpl. lia.
Defined.

(** X12: [GET /api/websites/{id}] never changes the world; it answers 400
    for an id that [ObjectId] refuses, any string that is not 24
    characters long among them, 404 for an id that [ObjectId] accepts but
    that names no stored website, and for a stored website that the
    schema and the URL parser accept it returns that website. *)
Theorem get_website_outcome
        (HttpUrl : string -> option string) (wid : string) (w : World) :
  snd (get_website HttpUrl wid w) = w
  /\ (String.length wid <> 24%nat ->
      fst (get_website HttpUrl wid w)
      = inl (HTTPException 400 "Invalid ID format"))
  /\ (Bson.ObjectId_of_str wid = None ->
      fst (get_website HttpUrl wid w)
      = inl (HTTPException 400 "Invalid ID format"))
  /\ (forall o,
         Bson.ObjectId_of_str wid = Some o ->
         Database.find_one o (Database.db_website (db w)) = None ->
         fst (get_website HttpUrl wid w)
         = inl (HTTPException 404 "Website not found"))
  /\ (forall o item,
         Bson.ObjectId_of_str wid = Some o ->
         Database.find_one o (Database.db_website (db w)) = Some item ->
         Website_ok HttpUrl (Database.fields item) ->
         exists out,
           fst (get_website HttpUrl wid w) = inr out
           /\ shows_website out item).
Proof.
  split; [|split; [|split; [|split]]].
  - unfold get_website, bind, oid, query, ret, raise.
    destruct (Bson.ObjectId_of_str wid) as [o|]; cbn; [|reflexivity].
    destruct (Database.find_one o (Database.db_website (db w))) as [item|];
      cbn; [|reflexivity].
    destruct (WebsiteOut_of HttpUrl item); reflexivity.
  - intros Hlen. unfold get_website, bind, oid.
    now rewrite (ObjectId_of_str_length wid Hlen).
  - intros Ho. unfold get_website, bind, oid. now rewrite Ho.
  - intros o Ho Hf. unfold get_website, bind, oid, query, ret. rewrite Ho.
    cbn. now rewrite Hf.
  - intros o item Ho Hf Hok.
    destruct (WebsiteOut_of_ok HttpUrl item Hok) as [out [Hout Hshow]].
    exists out. split; [|exact Hshow].
    unfold get_website, bind, oid, query, ret. rewrite Ho.
    cbn. rewrite Hf. cbn. now rewrite Hout.
Qed.

Lemma get_website_outcome_witness :
  exists out,
    fst (get_website Sample.HttpUrl Sample.site_id Sample.world) = inr out
    /\ shows_website out Sample.site.
Proof.
  apply (proj2 (proj2 (proj2 (proj2 (get_website_outcome Sample.HttpUrl
                                       Sample.site_id Sample.world))))
           Sample.site_id Sample.site eq_refl eq_refl).
  repeat split.
Defined.

(** An id of 24 characters with whitespace between its digits is one
    [ObjectId] accepts; it names no stored website. *)
Example get_website_id_with_spaces :
  get_website Sample.HttpUrl "64b7f0c2 a1b2c3d4 e5f607" Sample.world
  = (inl (HTTPException 404 "Website not found"), Sample.world).
Proof. reflexivity. Qed.

(** X13: a website that [POST /api/websites] has returned is found again
    by [GET /api/websites/{id}] under the returned id, and comes back as
    it was returned, provided the URL parser accepts its own output as it
    is and the store has handed out an id that no stored website had. *)
Theorem created_website_is_found
        (HttpUrl : string -> option string) (env : Env) (b : WebsiteBody)
        (w w' : World) (out : WebsiteOut) :
  post_api_websites HttpUrl env b w = (inr out, w') ->
  HttpUrl (in_url (wo_payload out)) = Some (in_url (wo_payload out)) ->
  Database.find_one (wo_id out) (Database.db_website (db w)) = None ->
  get_website HttpUrl (wo_id out) w' = (inr out, w').
Proof.
  intros Hrun Hidem Hfresh.
  destruct (post_api_websites_created HttpUrl env b w w' out Hrun)
    as [n [u [doc [_ [_ [_ [_ [Hint [_ [Hdb [_ [Hshow [Hid _]]]]]]]]]]]]].
  destruct Hshow as [Hoid [Hname [Hurl [Hcat [Hkw [Hiv Hact]]]]]].
  assert (Ho : Bson.ObjectId_of_str (wo_id out) = Some (wo_id out))
    by (rewrite Hoid, Hid; apply ObjectId_of_N_accepted).
  assert (Hf : Database.find_one (wo_id out) (Database.db_website (db w'))
               = Some doc).
  { rewrite Hdb. cbn. apply find_one_app; [exact Hfresh | now symmetry]. }
  unfold get_website, bind, oid, query, ret. rewrite Ho. cbn. rewrite Hf. cbn.
  unfold WebsiteOut_of. rewrite <- Hurl, Hidem, <- Hiv, Hint.
  rewrite <- Hoid, <- Hname, <- Hcat, <- Hkw, <- Hact.
  destruct out as [i [pn pu pc pk pi pa]]. reflexivity.
Qed.

Lemma created_website_is_found_witness :
  get_website Sample.HttpUrl (Bson.ObjectId_of_N 0)
    (snd (post_api_websites Sample.HttpUrl (Sample.refusing 1000) Sample.body
            Sample.empty_world))
  = (inr (mkWebsiteOut (Bson.ObjectId_of_N 0)
            (mkWebsiteIn "Example" "https://example.com" None
               ["Welcome"%string] 300 true)),
     snd (post_api_websites Sample.HttpUrl (Sample.refusing 1000) Sample.body
            Sample.empty_world)).
Proof.
  exact (created_website_is_found Sample.HttpUrl (Sample.refusing 1000)
           Sample.body Sample.empty_world
           (snd (post_api_websites Sample.HttpUrl (Sample.refusing 1000)
                   Sample.body Sample.empty_world))
           (mkWebsiteOut (Bson.ObjectId_of_N 0)
              (mkWebsiteIn "Example" "https://example.com" None
                 ["Welcome"%string] 300 true))
           eq_refl eq_refl eq_refl).
Defined.

(** X14: a website that [POST /api/websites] has returned can be checked
    under the returned id: [POST /api/check/{id}] answers with a result
    for that id, after one probe of the stored url, scanning the stored
    keywords. *)
Theorem created_website_can_be_checked
        (HttpUrl : string -> option string) (env env' : Env) (b : WebsiteBody)
        (w w' : World) (out : WebsiteOut) :
  post_api_websites HttpUrl env b w = (inr out, w') ->
  Database.find_one (wo_id out) (Database.db_website (db w)) = None ->
  exists r w'',
    run_check env' (wo_id out) w' = (inr r, w'')
    /\ probes w'' = probes w ++ [in_url (wo_payload out)]
    /\ website_id (result r) = wo_id out
    /\ (exists cdoc,
           check_results w'' = check_results w ++ [cdoc]
           /\ shows (result r) cdoc)
    /\ keyword_matches (result r)
       = v_matches (check_outcome (network env' (in_url (wo_payload out)))
                      (in_keywords (wo_payload out))).
Proof.
  intros Hrun Hfresh.
  destruct (post_api_websites_created HttpUrl env b w w' out Hrun)
    as [n [u [doc [_ [_ [_ [_ [_ [_ [Hdb [Hpr [Hshow [Hid _]]]]]]]]]]]]].
  destruct Hshow as [Hoid [_ [Hurl [_ [Hkw _]]]]].
  assert (Ho : Bson.ObjectId_of_str (wo_id out) = Some (wo_id out))
    by (rewrite Hoid, Hid; apply ObjectId_of_N_accepted).
  assert (Hf : Database.find_one (wo_id out) (Database.db_website (db w'))
               = Some doc).
  { rewrite Hdb. cbn. apply find_one_app; [exact Hfresh | now symmetry]. }
  eexists _, _.
  split; [exact (run_check_found env' (wo_id out) w' (wo_id out) doc Ho Hf)|].
  cbn [probes result].
  split; [now rewrite Hpr, Hurl|].
  split; [reflexivity|].
  split.
  - exists (stored_of env' (wo_id out) doc w').
    split; [|apply returned_shows_stored].
    unfold check_results. cbn [db Database.insert_one Database.db_checkresult].
    rewrite Hdb. reflexivity.
  - unfold returned_of, vars_of. cbn [keyword_matches].
    now rewrite Hurl, Hkw.
Qed.

Lemma created_website_can_be_checked_witness :
  exists r w'',
    run_check (Sample.answering 200 100 2000) (Bson.ObjectId_of_N 0)
      (snd (post_api_websites Sample.HttpUrl (Sample.refusing 1000) Sample.body
              Sample.empty_world)) = (inr r, w'')
    /\ probes w'' = probes Sample.empty_world ++ ["https://example.com"%string]
    /\ website_id (result r) = Bson.ObjectId_of_N 0
    /\ (exists cdoc,
           check_results w'' = check_results Sample.empty_world ++ [cdoc]
           /\ shows (result r) cdoc)
    /\ keyword_matches (result r)
       = v_matches (check_outcome
                      (Returned (mkResponse 200 "Welcome to Example") 100)
                      ["Welcome"%string]).
Proof.
  exact (created_website_can_be_checked Sample.HttpUrl (Sample.refusing 1000)
           (Sample.answering 200 100 2000) Sample.body Sample.empty_world
           (snd (post_api_websites Sample.HttpUrl (Sample.refusing 1000)
                   Sample.body Sample.empty_world))
           (mkWebsiteOut (Bson.ObjectId_of_N 0)
              (mkWebsiteIn "Example" "https://example.com" None
                 ["Welcome"%string] 300 true))
           eq_refl eq_refl).
Defined.

(** X15: when every stored website is one the schema and the URL parser
    accept, [GET /api/websites] leaves the world as it is and returns
    every stored website exactly once, in ascending order of name. *)
Theorem list_websites_sorted_by_name
        (HttpUrl : string -> option string) (w : World) :
  Forall (fun i => Website_ok HttpUrl (Database.fields i))
    (Database.db_website (db w)) ->
  exists outs items,
    list_websites HttpUrl w = (inr outs, w)
    /\ Permutation items (Database.db_website (db w))
    /\ StronglySorted (name_le Schemas.name) items
    /\ Forall2 shows_website outs items.
Proof.
  intros Hok.
  set (items := sort_name_asc Schemas.name (Database.db_website (db w))).
  assert (Hitems : Forall (fun i => Website_ok HttpUrl (Database.fields i)) items).
  { apply (Permutation_Forall
             (Permutation_sym (sort_name_asc_perm Schemas.name _))).
    exact Hok. }
  assert (Hsome : Forall (fun i => exists y, WebsiteOut_of HttpUrl i = Some y) items).
  { eapply Forall_impl; [|exact Hitems].
    intros i Hi. destruct (WebsiteOut_of_ok HttpUrl i Hi) as [out [Hout _]].
    now exists out. }
  destruct (build_all_total (WebsiteOut_of HttpUrl) items Hsome) as [outs Houts].
  exists outs, items.
  split.
  { unfold list_websites, bind, query, ret. cbn. fold items. now rewrite Houts. }
  split; [apply sort_name_asc_perm|].
  split; [apply sort_name_asc_sorted|].
  apply build_all_Forall2 in Houts.
  clear Hsome. revert Hitems.
  induction Houts as [|out i touts titems Hout _ IH]; intros Hitems.
  - constructor.
  - apply Forall_cons_iff in Hitems. destruct Hitems as [Hi Ht].
    constructor; [|now apply IH].
    destruct (WebsiteOut_of_ok HttpUrl i Hi) as [out' [Hout' Hshow]].
    rewrite Hout in Hout'. injection Hout' as <-. exact Hshow.
Qed.

(** The two sample websites come back with Example before Zebra, the
    reverse of the order they were created in. *)
Example list_websites_two :
  fst (list_websites Sample.HttpUrl Fixture.two_websites)
  = inr [mkWebsiteOut (Bson.ObjectId_of_N 1)
           (mkWebsiteIn "Example" "https://example.com" None
              ["Welcome"%string] 300 true);
         mkWebsiteOut (Bson.ObjectId_of_N 0)
           (mkWebsiteIn "Zebra" "https://zebra.example" None [] 60 false)].
Proof. reflexivity. Qed.

Lemma list_websites_sorted_by_name_witness :
  exists outs items,
    list_websites Sample.HttpUrl Fixture.two_websites
    = (inr outs, Fixture.two_websites)
    /\ Permutation items (Database.db_website (db Fixture.two_websites))
    /\ StronglySorted (name_le Schemas.name) items
    /\ Forall2 shows_website outs items.
Proof.
  apply list_websites_sorted_by_name.
  repeat constructor.
Defined.

Lemma post_api_categories_world (env : Env) (b : CategoryBody) (w : World) :
  snd (post_api_categories env b w) = w
  \/ exists doc,
      db (snd (post_api_categories env b w))
      = Database.insert_one Database.category doc (db w)
      /\ Category_ok (Database.fields doc).
Proof.
  unfold post_api_categories, CategoryIn_validate.
  destruct (cbody_name b) as [n|]; [|now left].
  destruct (Schemas.length_between 2 100 n) eqn:Hb; [|now left].
  unfold create_category, Schemas.Category_new. cbn [cin_name cin_color].
  rewrite Hb. right. eexists. split; [reflexivity | exact Hb].
Qed.

Lemma run_check_keeps_sites (env : Env) (wid : string) (w : World) :
  Database.db_website (db (snd (run_check env wid w))) = Database.db_website (db w)
  /\ Database.db_category (db (snd (run_check env wid w)))
     = Database.db_category (db w).
Proof.
  destruct (Bson.ObjectId_of_str wid) as [o|] eqn:Ho.
  - destruct (Database.find_one o (Database.db_website (db w))) as [item|] eqn:Hf.
    + rewrite (run_check_found env wid w o item Ho Hf). now split.
    + rewrite (run_check_missing env wid w o Ho Hf). now split.
  - rewrite (run_check_invalid env wid w Ho). now split.
Qed.

(** X16: the handlers keep the store well-formed.  If the URL parser
    accepts its own output as it is and every stored website and category
    is one the schemas accept, the same holds after
    [POST /api/websites], [POST /api/categories] and
    [POST /api/check/{id}], whatever the request and its outcome. *)
Theorem handlers_keep_store_valid
        (HttpUrl : string -> option string) (env : Env) (w : World) :
  (forall u u', HttpUrl u = Some u' -> HttpUrl u' = Some u') ->
  Db_ok HttpUrl (db w) ->
  (forall b, Db_ok HttpUrl (db (snd (post_api_websites HttpUrl env b w))))
  /\ (forall b, Db_ok HttpUrl (db (snd (post_api_categories env b w))))
  /\ (forall wid, Db_ok HttpUrl (db (snd (run_check env wid w)))).
Proof.
  intros Hidem [Hsites Hcats].
  split; [|split].
  - intros b.
    destruct (post_api_websites HttpUrl env b w) as [[f|out] w'] eqn:Hrun.
    + assert (Hw : w' = w).
      { revert Hrun. unfold post_api_websites.
        destruct (WebsiteIn_validate HttpUrl b) as [p|];
          [|intros H; now injection H].
        unfold create_website.
        destruct (Schemas.Website_new _ _ _ _ _ _);
          [discriminate | intros H; now injection H]. }
      cbn [snd]. rewrite Hw. now split.
    + destruct (post_api_websites_created HttpUrl env b w w' out Hrun)
        as [n [u [doc [_ [_ [Hp [Hlen [Hint [Hpay [Hdb [_ [Hshow _]]]]]]]]]]]].
      destruct Hshow as [_ [Hname [Hurl [_ [_ [Hiv _]]]]]].
      cbn [snd]. rewrite Hdb. split; cbn; [|exact Hcats].
      apply Forall_app. split; [exact Hsites|].
      constructor; [|constructor].
      unfold Website_ok. rewrite <- Hname, <- Hurl, <- Hiv.
      split; [rewrite Hpay; exact Hlen|].
      split; [exact Hint | exact (Hidem u _ Hp)].
  - intros b.
    destruct (post_api_categories_world env b w) as [Hw | [doc [Hdb Hok]]].
    + rewrite Hw. now split.
    + rewrite Hdb. split; cbn; [exact Hsites|].
      apply Forall_app. split; [exact Hcats | now constructor].
  - intros wid.
    destruct (run_check_keeps_sites env wid w) as [Hs Hc].
    unfold Db_ok. now rewrite Hs, Hc.
Qed.

Lemma handlers_keep_store_valid_witness :
  (forall b,
      Db_ok Sample.HttpUrl
        (db (snd (post_api_websites Sample.HttpUrl (Sample.refusing 1000) b
                    Sample.world))))
  /\ (forall b,
         Db_ok Sample.HttpUrl
           (db (snd (post_api_categories (Sample.refusing 1000) b Sample.world))))
  /\ (forall wid,
         Db_ok Sample.HttpUrl
           (db (snd (run_check (Sample.refusing 1000) wid Sample.world)))).
Proof.
  apply handlers_keep_store_valid.
  - intros u u'. unfold Sample.HttpUrl.
    destruct (PyStr.starts_with "http://" u || PyStr.starts_with "https://" u)
      eqn:H; [|discriminate].
    intros E. injection E as <-. now rewrite H.
  - split; repeat constructor.
Defined.

(** ** [serialize] *)

Section SerializeFacts.

Import Serialize.

Variable str : Value -> string.
Variable isoformat : Z -> string.

Lemma get_set (k k' : string) (v : Value) (doc : Dict) :
  get k (set k' v doc) = if String.eqb k' k then Some v else get k doc.
Proof.
  induction doc as [|[k0 v0] t IH]; simpl.
  - destruct (String.eqb k' k); reflexivity.
  - destruct (String.eqb_spec k0 k') as [->|Hne]; simpl.
    + destruct (String.eqb k' k); reflexivity.
    + rewrite IH.
      destruct (String.eqb_spec k0 k) as [->|Hk]; [|reflexivity].
      destruct (String.eqb_spec k' k) as [->|_]; [contradiction | reflexivity].
Qed.

Lemma get_In_keys (k : string) (doc : Dict) :
  get k doc <> None <-> In k (keys doc).
Proof.
  induction doc as [|[k0 v0] t IH]; simpl.
  - tauto.
  - destruct (String.eqb_spec k0 k) as [->|Hne].
    + split; [now left | discriminate].
    + rewrite IH. split; [now right | intros [H|H]; [contradiction | exact H]].
Qed.

Lemma keys_set (k : string) (v : Value) (doc : Dict) :
  keys (set k v doc)
  = match get k doc with
    | Some _ => keys doc
    | None => keys doc ++ [k]
    end.
Proof.
  induction doc as [|[k0 v0] t IH]; simpl.
  - reflexivity.
  - destruct (String.eqb k0 k); simpl; [reflexivity|].
    rewrite IH. now destruct (get k t).
Qed.

Lemma NoDup_keys_set (k : string) (v : Value) (doc : Dict) :
  NoDup (keys doc) -> NoDup (keys (set k v doc)).
Proof.
  intros Hnd. rewrite keys_set.
  destruct (get k doc) eqn:Hg; [exact Hnd|].
  apply NoDup_app; [exact Hnd | repeat constructor; intros [] |].
  intros x Hx [<-|[]].
  apply get_In_keys in Hx. contradiction.
Qed.

Lemma set_same (k : string) (v : Value) (doc : Dict) :
  get k doc = Some v -> set k v doc = doc.
Proof.
  induction doc as [|[k0 v0] t IH]; simpl; [discriminate|].
  destruct (String.eqb k0 k).
  - intros H. now injection H as ->.
  - intros H. now rewrite IH.
Qed.

Lemma set_app_notin (k : string) (v v0 : Value) (pre t : Dict) :
  ~ In k (keys pre) ->
  set k v (pre ++ (k, v0) :: t) = pre ++ (k, v) :: t.
Proof.
  induction pre as [|[k1 v1] p IH]; simpl; intros Hnot.
  - now rewrite String.eqb_refl.
  - destruct (String.eqb_spec k1 k) as [->|Hne].
    + elim Hnot. now left.
    + rewrite IH; [reflexivity | tauto].
Qed.

Lemma keys_map_conv (doc : Dict) : keys (map (converted isoformat) doc) = keys doc.
Proof.
  unfold keys. rewrite map_map. reflexivity.
Qed.

Lemma get_map_conv (k : string) (doc : Dict) :
  get k (map (converted isoformat) doc) = option_map (serialized isoformat) (get k doc).
Proof.
  induction doc as [|[k0 v0] t IH]; simpl; [reflexivity|].
  destruct (String.eqb k0 k); [reflexivity | exact IH].
Qed.

(** The loop, started on the items not yet visited, turns the dict into
    the dict of the converted values. *)
Lemma loop_converts (items pre : Dict) :
  NoDup (keys (pre ++ items)) ->
  fold_left (convert isoformat) items (map (converted isoformat) pre ++ items)
  = map (converted isoformat) (pre ++ items).
Proof.
  revert pre. induction items as [|[k v] t IH]; intros pre Hnd.
  - now rewrite !app_nil_r.
  - assert (Hnot : ~ In k (keys (map (converted isoformat) pre))).
    { rewrite keys_map_conv. unfold keys in *. rewrite map_app in Hnd.
      apply NoDup_remove_2 in Hnd. intros Hin. apply Hnd.
      apply in_or_app. now left. }
    assert (Hstep : convert isoformat (map (converted isoformat) pre ++ (k, v) :: t) (k, v)
                    = map (converted isoformat) (pre ++ [(k, v)]) ++ t).
    { unfold convert. cbn [fst snd]. rewrite map_app. cbn [map].
      rewrite <- app_assoc. cbn [app].
      destruct v; try reflexivity.
      now rewrite set_app_notin. }
    cbn [fold_left]. rewrite Hstep.
    replace (pre ++ (k, v) :: t) with ((pre ++ [(k, v)]) ++ t)
      by now rewrite <- app_assoc.
    apply IH. now rewrite <- app_assoc.
Qed.

(** [serialize] on a dict that is not empty: [_id] is set to the text of
    what was there, then every value is converted. *)
Lemma serialize_value (doc : Dict) :
  doc <> [] ->
  NoDup (keys doc) ->
  serialize str isoformat doc
  = map (converted isoformat) (set "_id" (VStr (str (or_default VNone (get "_id" doc)))) doc).
Proof.
  intros Hne Hnd. unfold serialize.
  destruct doc as [|item t]; [contradiction|].
  apply (loop_converts _ []).
  now apply NoDup_keys_set.
Qed.

End SerializeFacts.

(** X17: looking a key up after [serialize], in a dict that is not
    empty: [_id] holds the text of the former [_id], the text of [None]
    when there was none; under every other key a datetime has become its
    ISO text and any other value is as it was; a key that was missing is
    still missing. *)
Theorem serialize_lookup
        (str : Serialize.Value -> string) (isoformat : Z -> string)
        (doc : Serialize.Dict) (k : string) :
  doc <> [] ->
  NoDup (Serialize.keys doc) ->
  Serialize.get k (Serialize.serialize str isoformat doc)
  = if String.eqb "_id" k
    then Some (Serialize.VStr
                 (str (or_default Serialize.VNone (Serialize.get "_id" doc))))
    else option_map (Serialize.serialized isoformat) (Serialize.get k doc).
Proof.
  intros Hne Hnd.
  rewrite (serialize_value str isoformat doc Hne Hnd).
  rewrite get_map_conv, get_set.
  now destruct (String.eqb "_id" k).
Qed.

Lemma serialize_lookup_witness :
  Serialize.get "created_at"
    (Serialize.serialize Fixture.str Fixture.isoformat Fixture.doc)
  = if String.eqb "_id" "created_at"
    then Some (Serialize.VStr
                 (Fixture.str (or_default Serialize.VNone
                                 (Serialize.get "_id" Fixture.doc))))
    else option_map (Serialize.serialized Fixture.isoformat)
           (Serialize.get "created_at" Fixture.doc).
Proof.
  apply serialize_lookup.
  - discriminate.
  - repeat constructor; simpl; intuition discriminate.
Defined.

(** X18: [serialize] keeps the keys of a dict in their order, adding
    [_id] at the end when it was missing, and leaves no datetime among
    the values; the empty dict comes back empty, without an [_id]. *)
Theorem serialize_keys_and_values
        (str : Serialize.Value -> string) (isoformat : Z -> string)
        (doc : Serialize.Dict) :
  NoDup (Serialize.keys doc) ->
  Serialize.keys (Serialize.serialize str isoformat doc)
  = match doc, Serialize.get "_id" doc with
    | [], _ => []
    | _ :: _, Some _ => Serialize.keys doc
    | _ :: _, None => Serialize.keys doc ++ ["_id"%string]
    end
  /\ Forall (fun item => Serialize.has_isoformat (snd item) = false)
       (Serialize.serialize str isoformat doc).
Proof.
  intros Hnd.
  destruct doc as [|item t]; [split; [reflexivity | constructor]|].
  assert (Hne : item :: t <> []) by discriminate.
  rewrite (serialize_value str isoformat (item :: t) Hne Hnd).
  split.
  - rewrite keys_map_conv, keys_set. lazy beta iota.
    now destruct (Serialize.get "_id" (item :: t)).
  - apply Forall_map, Forall_forall. intros [k v] _. now destruct v.
Qed.

Lemma serialize_keys_and_values_witness :
  Serialize.keys (Serialize.serialize Fixture.str Fixture.isoformat Fixture.doc)
  = ["_id"%string; "is_up"%string; "created_at"%string]
  /\ Forall (fun item => Serialize.has_isoformat (snd item) = false)
       (Serialize.serialize Fixture.str Fixture.isoformat Fixture.doc).
Proof.
  apply (serialize_keys_and_values Fixture.str Fixture.isoformat Fixture.doc).
  repeat constructor; simpl; intuition discriminate.
Defined.

Lemma serialized_idempotent (isoformat : Z -> string) (doc : Serialize.Dict) :
  map (Serialize.converted isoformat) (map (Serialize.converted isoformat) doc)
  = map (Serialize.converted isoformat) doc.
Proof.
  rewrite map_map. apply map_ext. intros [k v]. now destruct v.
Qed.

(** X19: [serialize] is idempotent: serializing a serialized dict changes
    nothing, given that the text of a string is the string itself. *)
Theorem serialize_idempotent
        (str : Serialize.Value -> string) (isoformat : Z -> string)
        (doc : Serialize.Dict) :
  (forall s, str (Serialize.VStr s) = s) ->
  NoDup (Serialize.keys doc) ->
  Serialize.serialize str isoformat (Serialize.serialize str isoformat doc)
  = Serialize.serialize str isoformat doc.
Proof.
  intros Hstr Hnd.
  destruct doc as [|item t] eqn:Hdoc; [reflexivity|].
  rewrite <- Hdoc in *.
  assert (Hne : doc <> []) by (rewrite Hdoc; discriminate).
  rewrite (serialize_value str isoformat doc Hne Hnd).
  set (text := str (or_default Serialize.VNone (Serialize.get "_id" doc))).
  set (doc1 := Serialize.set "_id" (Serialize.VStr text) doc).
  assert (Hnd1 : NoDup (Serialize.keys (map (Serialize.converted isoformat) doc1))).
  { rewrite keys_map_conv. now apply NoDup_keys_set. }
  assert (Hne1 : map (Serialize.converted isoformat) doc1 <> []).
  { unfold doc1. rewrite Hdoc. simpl.
    destruct item as [k0 v0]. destruct (String.eqb k0 "_id"); discriminate. }
  assert (Hget : Serialize.get "_id" (map (Serialize.converted isoformat) doc1)
                 = Some (Serialize.VStr text)).
  { rewrite get_map_conv. unfold doc1. rewrite get_set, String.eqb_refl.
    reflexivity. }
  rewrite (serialize_value str isoformat _ Hne1 Hnd1).
  rewrite Hget. cbn [or_default]. rewrite Hstr.
  rewrite (set_same _ _ _ Hget).
  apply serialized_idempotent.
Qed.

Lemma serialize_idempotent_witness :
  Serialize.serialize Fixture.str Fixture.isoformat
    (Serialize.serialize Fixture.str Fixture.isoformat Fixture.doc)
  = Serialize.serialize Fixture.str Fixture.isoformat Fixture.doc.
Proof.
  apply serialize_idempotent.
  - reflexivity.
  - repeat constructor; simpl; intuition discriminate.
Defined.

(** ** The diagnostic endpoint *)



(** X21: the diagnostic lists at most ten collection names, the first
    ten the store names, and none when there is no database handle or
    the listing raises; it says "Connected" exactly when there is a
    handle, and "Connected & Working" exactly when the listing
    succeeds. *)
Theorem test_database_collections
        (db : option Diagnostic.Handle) (getenv : string -> option string) :
  let r := Diagnostic.test_database db getenv in
  (List.length (Diagnostic.collections r) <= 10)%nat
  /\ (forall h names,
         db = Some h ->
         Diagnostic.list_collection_names h = inr names ->
         Diagnostic.collections r = firstn 10 names
         /\ Diagnostic.database r = "✅ Connected & Working"%string)
  /\ (forall h e,
         db = Some h ->
         Diagnostic.list_collection_names h = inl e ->
         Diagnostic.collections r = []
         /\ Diagnostic.database r
            = ("⚠️  Connected but Error: " ++ PyStr.take 50 e)%string)
  /\ (db = None ->
      Diagnostic.collections r = []
      /\ Diagnostic.database r = "⚠️  Available but not initialized"%string)
  /\ (Diagnostic.connection_status r = "Connected"%string <-> db <> None).
Proof.
  cbv zeta. unfold Diagnostic.test_database.
  destruct db as [h|].
  - destruct (Diagnostic.list_collection_names h) as [e|names] eqn:Hl; cbn -[firstn PyStr.take String.append].
    + split; [simpl; lia|].
      split.
      { intros h' names' E. injection E as <-. rewrite Hl. discriminate. }
      split.
      { intros h' e' E He. injection E as <-. rewrite Hl in He.
        injection He as <-. now split. }
      split; [discriminate|].
      split; [discriminate | reflexivity].
    + split; [apply firstn_le_length|].
      split.
      { intros h' names' E Hn. injection E as <-. rewrite Hl in Hn.
        injection Hn as <-. now split. }
      split.
      { intros h' e' E. injection E as <-. rewrite Hl. discriminate. }
      split; [discriminate|].
      split; [discriminate | reflexivity].
  - cbn -[firstn PyStr.take String.append]. split; [simpl; lia|].
    split; [discriminate|].
    split; [discriminate|].
    split; [now split|].
    split; [discriminate | intros H; now elim H].
Qed.

Lemma test_database_collections_witness :
  Diagnostic.collections
    (Diagnostic.test_database
       (Some (Diagnostic.mkHandle (Some "monitor"%string)
                (inr ["category"%string; "website"%string; "checkresult"%string])))
       (fun _ => None))
  = firstn 10 ["category"%string; "website"%string; "checkresult"%string]
  /\ Diagnostic.database
       (Diagnostic.test_database
          (Some (Diagnostic.mkHandle (Some "monitor"%string)
                   (inr ["category"%string; "website"%string;
                         "checkresult"%string])))
          (fun _ => None))
     = "✅ Connected & Working"%string.
Proof.
  exact (proj1 (proj2 (test_database_collections
                         (Some (Diagnostic.mkHandle (Some "monitor"%string)
                                  (inr ["category"%string; "website"%string;
                                        "checkresult"%string])))
                         (fun _ => None)))
           (Diagnostic.mkHandle (Some "monitor"%string)
              (inr ["category"%string; "website"%string; "checkresult"%string]))
           ["category"%string; "website"%string; "checkresult"%string]
           eq_refl eq_refl).
Defined.

(** ** Recent checks, continued *)




(** X23: the window of the summary is made of the newest check results:
    it is sorted newest first, and no stored result outside the window is
    newer than a result inside. *)
Theorem summary_window_is_newest (w : World) :
  exists rest,
    StronglySorted newer_or_equal (recent_window (db w))
    /\ Permutation (recent_window (db w) ++ rest) (check_results w)
    /\ (forall x y,
           In x (recent_window (db w)) -> In y rest -> newer_or_equal x y)
    /\ py_len (recent_window (db w)) = Z.min 200 (py_len (check_results w)).
Proof.
  destruct (latest_items_spec 200 None (db w))
    as [rest [Hs [Hperm [Hcross Hlen]]]].
  unfold latest_items in *. rewrite filter_filt_None in *.
  fold (recent_window (db w)) in *.
  exists rest.
  split; [exact Hs|].
  split; [exact Hperm|].
  split; [exact Hcross|].
  rewrite (Hlen ltac:(lia)). unfold py_len. f_equal. f_equal.
  now apply Permutation_length.
Qed.

Lemma summary_window_is_newest_witness :
  exists rest,
    StronglySorted newer_or_equal (recent_window (db Sample.two_checks))
    /\ Permutation (recent_window (db Sample.two_checks) ++ rest)
         (check_results Sample.two_checks)
    /\ (forall x y,
           In x (recent_window (db Sample.two_checks)) -> In y rest ->
           newer_or_equal x y)
    /\ py_len (recent_window (db Sample.two_checks))
       = Z.min 200 (py_len (check_results Sample.two_checks)).
Proof.
  exact (summary_window_is_newest Sample.two_checks).
Defined.

Lemma summary_average_absent_iff_witness :
  exists s,
    summary Sample.fast_check = (inr s, Sample.fast_check)
    /\ (avg_response_time_ms s = None
        <-> forall r,
            In r (recent_window (db Sample.fast_check)) ->
            Schemas.response_time_ms (Database.fields r) = None
            \/ Schemas.response_time_ms (Database.fields r) = Some 0).
Proof.
  exact (summary_average_absent_iff Sample.fast_check).
Defined.

